(** * Claim lifecycle orchestration: a shallow embedding of [ClaimService]

    Source: [src/claim/claim.service.ts].  The service is a NestJS class
    whose methods are [async] functions over five injected collaborators
    (claim repository, oracle, notifier, user service, fraud detector).

    The embedding follows the code:
    - the repository is a finite map from claim ids to claim rows;
    - every method is a computation in a small state-and-exception monad
      [M]; the state survives a [throw], as it does in the source (a row
      saved before a [throw] stays saved);
    - the collaborators the service does not own are the fields of an
      environment [Env]; each answer may depend on how many effects the
      service has performed so far, so a collaborator may answer two
      identical calls differently;
    - every collaborator call and every repository save is appended to a
      trace, which is how "was called" and "was written" are stated.

    Methods run one at a time: the interleaving of two [async] methods at
    their [await] points is not part of this model. *)

From Stdlib Require Import ZArith QArith_base.
From stdpp Require Import gmap strings list fin_maps pretty sorting.

Open Scope Z_scope.

(** ** Data model *)

(** [ClaimStatus] (enums/claim-status.enum): the four values the service
    names. *)
Inductive ClaimStatus := PENDING | APPROVED | REJECTED | FLAGGED.

#[global] Instance ClaimStatus_eq_dec : EqDecision ClaimStatus.
Proof. solve_decision. Defined.

(** [a === b] on statuses. *)
Definition ClaimStatus_eqb (a b : ClaimStatus) : bool :=
  match a, b with
  | PENDING, PENDING | APPROVED, APPROVED
  | REJECTED, REJECTED | FLAGGED, FLAGGED => true
  | _, _ => false
  end.

(** The related user row; the service reads only its [id]. *)
Record User := mkUser { user_id : string; user_email : string }.

(** [fraudResult.metadata] of the fraud detector's answer. *)
Record FraudMetadata := mkFraudMetadata {
  riskFactors : option (list string);
  modelVersion : option string;
  timestamp : option Z
}.

(** The answer of [fraudDetectionService.detectFraud]. *)
Record FraudResult := mkFraudResult {
  fr_isFraudulent : bool;
  fr_confidenceScore : Q;
  fr_reason : string;
  fr_metadata : option FraudMetadata
}.

(** The object stored in [claim.fraudDetectionData]. *)
Record FraudDetectionData := mkFraudDetectionData {
  fd_reason : string;
  fd_riskFactors : option (list string);
  fd_modelVersion : option string;
  fd_detectedAt : Z;
  fd_metadata : option FraudMetadata
}.

(** The object stored in [claim.oracleData]. *)
Record OracleData := mkOracleData { verifiedAt : Z; od_verdict : string }.

(** The columns of a claim row.  The [user] relation is not a column: it
    is loaded next to the row by [findOne] with [relations: ['user']] and
    is kept beside the row (see [findOneWithUser]). *)
Record Claim := mkClaim {
  id : Z;
  userId : string;
  description : string;
  status : ClaimStatus;
  fraudCheckCompleted : bool;
  isFraudulent : bool;
  fraudConfidenceScore : option Q;
  fraudDetectionData : option FraudDetectionData;
  oracleData : option OracleData
}.

Definition set_status (s : ClaimStatus) (c : Claim) : Claim :=
  mkClaim (id c) (userId c) (description c) s (fraudCheckCompleted c)
          (isFraudulent c) (fraudConfidenceScore c) (fraudDetectionData c)
          (oracleData c).

Definition set_description (d : string) (c : Claim) : Claim :=
  mkClaim (id c) (userId c) d (status c) (fraudCheckCompleted c)
          (isFraudulent c) (fraudConfidenceScore c) (fraudDetectionData c)
          (oracleData c).

Definition set_fraudCheckCompleted (b : bool) (c : Claim) : Claim :=
  mkClaim (id c) (userId c) (description c) (status c) b
          (isFraudulent c) (fraudConfidenceScore c) (fraudDetectionData c)
          (oracleData c).

Definition set_isFraudulent (b : bool) (c : Claim) : Claim :=
  mkClaim (id c) (userId c) (description c) (status c)
          (fraudCheckCompleted c) b (fraudConfidenceScore c)
          (fraudDetectionData c) (oracleData c).

Definition set_fraudConfidenceScore (q : Q) (c : Claim) : Claim :=
  mkClaim (id c) (userId c) (description c) (status c)
          (fraudCheckCompleted c) (isFraudulent c) (Some q)
          (fraudDetectionData c) (oracleData c).

Definition set_fraudDetectionData (d : FraudDetectionData) (c : Claim) : Claim :=
  mkClaim (id c) (userId c) (description c) (status c)
          (fraudCheckCompleted c) (isFraudulent c) (fraudConfidenceScore c)
          (Some d) (oracleData c).

Definition set_oracleData (d : OracleData) (c : Claim) : Claim :=
  mkClaim (id c) (userId c) (description c) (status c)
          (fraudCheckCompleted c) (isFraudulent c) (fraudConfidenceScore c)
          (fraudDetectionData c) (Some d).

(** Modelled from the spec: the [CreateClaimDto] class is not among the
    sources; the spec's data model gives a claim one owner-submitted field,
    its free-text description. *)
Record CreateClaimDto := mkCreateClaimDto { cc_description : string }.

(** [UpdateClaimDto]: the two properties the service reads from it, each
    possibly absent. *)
Record UpdateClaimDto := mkUpdateClaimDto {
  uc_status : option ClaimStatus;
  uc_description : option string
}.

(** Modelled from the spec: the [Claim] entity's column defaults are not
    among the sources; the spec has a claim created with status Pending,
    [fraudCheckCompleted] false, [isFraudulent] false and no fraud or
    verdict data.  This is [claimRepository.create({...dto, userId})] once
    the store has assigned the id. *)
Definition repository_create (dto : CreateClaimDto) (uid : string) (new_id : Z) : Claim :=
  mkClaim new_id uid (cc_description dto) PENDING false false None None None.

(** ** Exceptions *)

(** What a method can throw: the two NestJS exceptions the service
    constructs, the [TypeError] of a property read on [undefined], and
    whatever [Error] a collaborator throws. *)
Inductive exn :=
| NotFoundException (msg : string)
| ForbiddenException (msg : string)
| TypeError (msg : string)
| Error (msg : string).

(** [error.message] *)
Definition message (e : exn) : string :=
  match e with
  | NotFoundException m | ForbiddenException m | TypeError m | Error m => m
  end.

(** The spec's error taxonomy, and the class of each exception the code
    can raise.  The service constructs no exception of its own besides
    [NotFoundException] and [ForbiddenException]. *)
Inductive ErrorKind :=
| NotFound | InvalidState | Forbidden | CollaboratorFailure.

Definition kind_of (e : exn) : ErrorKind :=
  match e with
  | NotFoundException _ => NotFound
  | ForbiddenException _ => Forbidden
  | TypeError _ | Error _ => CollaboratorFailure
  end.

(** ** Effects *)

(** The argument object of [sendClaimStatusNotification]. *)
Record StatusNotice := mkStatusNotice {
  sn_claim : Claim;
  sn_user : option User;
  sn_previousStatus : ClaimStatus;
  sn_newStatus : ClaimStatus;
  sn_remarks : option string
}.

(** One entry per repository write and per collaborator call, in the order
    the service performs them. *)
Inductive Event :=
| EvSave (c : Claim)
| EvDetectFraud (c : Claim)
| EvVerifyClaim (claimId : Z) (desc : string)
| EvFindUser (uid : string)
| EvNotifySubmitted (c : Claim) (u : User)
| EvNotifyStatus (n : StatusNotice)
| EvNotifyProcessing (c : Claim) (u : User) (verdict : string)
| EvServiceStatus.

Inductive LogLevel := LogInfo | LogWarn | LogError.

(** A logger call: level, the fixed text of the message template, and the
    claim id interpolated into it. *)
Record LogEntry := mkLog { log_level : LogLevel; log_text : string; log_claim : Z }.

Record World := mkWorld {
  store : gmap Z Claim;      (* the claim table *)
  nextId : Z;                (* next generated primary key *)
  trace : list Event;        (* writes and collaborator calls so far *)
  logs : list LogEntry;      (* logger output so far *)
  timers : list Z            (* claim ids queued by [setTimeout] *)
}.

(** The answer of [getServiceStatus]: [{ healthy, message? }]. *)
Record ServiceStatus := mkServiceStatus {
  healthy : bool;
  status_message : option string
}.

(** What a method's promise resolves to: nothing ([Promise<void>]) or a
    [ClaimResponseDto] built from a claim. *)
Inductive RetVal := RetVoid | RetDto (c : Claim).

(** The object [getClaimStats] returns. *)
Record ClaimStats := mkClaimStats {
  st_total : Z;
  st_pending : Z;
  st_approved : Z;
  st_rejected : Z;
  st_flagged : Z;
  st_fraudulent : Z;
  st_fraudCheckCompleted : Z;
  st_fraudCheckPending : Z
}.

(** The injected collaborators.  The [nat] argument is the number of
    effects already in the trace when the call is made. *)
Record Env := mkEnv {
  detectFraud : nat → Claim → exn + FraudResult;
  getServiceStatus : option (nat → exn + ServiceStatus);
  verifyClaim : nat → Z → string → exn + string;
  userService_findOne : nat → string → exn + option User;
  sendClaimSubmittedNotification : nat → Claim → User → exn + unit;
  sendClaimStatusNotification : nat → StatusNotice → exn + unit;
  sendClaimProcessingNotification : nat → Claim → User → string → exn + unit;
  user_relation : string → option User;   (* the join behind [relations: ['user']] *)
  clock : nat → Z                         (* [new Date()] *)
}.

(** State and exceptions: a computation maps a world to a world and either
    a thrown exception or a value. *)
Definition M (A : Type) : Type := World → World * (exn + A).

#[global] Instance M_ret : MRet M := λ A a w, (w, inr a).
#[global] Instance M_bind : MBind M := λ A B f m w,
  match m w with
  | (w', inl e) => (w', inl e)
  | (w', inr a) => f a w'
  end.

Definition throw {A} (e : exn) : M A := λ w, (w, inl e).

(** [try { body } catch (error) { handler }] *)
Definition try_catch {A} (body : M A) (handler : exn → M A) : M A := λ w,
  match body w with
  | (w', inl e) => handler e w'
  | r => r
  end.

Definition emit (ev : Event) : M unit := λ w,
  (mkWorld (store w) (nextId w) (trace w ++ [ev]) (logs w) (timers w), inr tt).

Definition log (lvl : LogLevel) (text : string) (claimId : Z) : M unit := λ w,
  (mkWorld (store w) (nextId w) (trace w) (logs w ++ [mkLog lvl text claimId])
           (timers w), inr tt).

(** Ask a collaborator: record the call, then return or throw its answer. *)
Definition call {A} (ev : Event) (answer : nat → exn + A) : M A := λ w,
  let '(w', _) := emit ev w in
  (w', answer (length (trace w))).

(** ** The repository *)

(** [claimRepository.findOne({ where: { id } })] *)
Definition findOne (claimId : Z) : M (option Claim) := λ w,
  (w, inr (store w !! claimId)).

(** [claimRepository.save(claim)] for a loaded row: the row replaces the
    stored one and is returned. *)
Definition save (c : Claim) : M Claim := λ w,
  (mkWorld (<[id c := c]> (store w)) (nextId w) (trace w ++ [EvSave c])
           (logs w) (timers w), inr c).

(** [claimRepository.save(claim)] for a row that has no id yet: the store
    generates the key. *)
Definition save_new (mk : Z → Claim) : M Claim := λ w,
  let c := mk (nextId w) in
  (mkWorld (<[nextId w := c]> (store w)) (nextId w + 1) (trace w ++ [EvSave c])
           (logs w) (timers w), inr c).

(** [claimRepository.count({ where })] *)
Definition count (p : Claim → bool) (w : World) : Z :=
  Z.of_nat (length (List.filter p (snd <$> map_to_list (store w)))).

Section Service.

Variable env : Env.

(** [findOne({ where: { id }, relations: ['user'] })]: the row together
    with the joined user, which may be missing. *)
Definition findOneWithUser (claimId : Z) : M (option (Claim * option User)) :=
  found ← findOne claimId;
  mret ((λ c, (c, user_relation env (userId c))) <$> found).

(** [new Date()] *)
Definition newDate : M Z := λ w, (w, inr (clock env (length (trace w)))).

(** The object literal assigned to [claim.fraudDetectionData]
    (lines 317-323); [now] stands for the [new Date()] that the [||]
    falls back to. *)
Definition mkDetectionData (r : FraudResult) (now : Z) : FraudDetectionData :=
  mkFraudDetectionData
    (fr_reason r)
    (fr_metadata r ≫= riskFactors)
    (fr_metadata r ≫= modelVersion)
    (default now (fr_metadata r ≫= timestamp))
    (fr_metadata r).

(** Lines 314-331: the in-memory update of the claim from a fraud result. *)
Definition applyFraudResult (r : FraudResult) (now : Z) (c : Claim) : Claim :=
  let c := set_fraudCheckCompleted true c in
  let c := set_isFraudulent (fr_isFraudulent r) c in
  let c := set_fraudConfidenceScore (fr_confidenceScore r) c in
  let c := set_fraudDetectionData (mkDetectionData r now) c in
  if fr_isFraudulent r then set_status FLAGGED c else c.

(** [runFraudDetection] (lines 296-352).  Inside the [try], the only
    statement that can throw is the [detectFraud] call, which comes before
    the claim object is touched; the [catch] therefore sees the claim as it
    was loaded. *)
Definition runFraudDetection (claimId : Z) : M unit :=
  found ← findOne claimId;
  match found with
  | None =>
      throw (NotFoundException ("Claim with ID " +:+ pretty claimId +:+ " not found"))
  | Some claim =>
      if fraudCheckCompleted claim then
        log LogWarn "Fraud detection already completed for claim" claimId
      else
        try_catch
          (log LogInfo "Starting fraud detection for claim" claimId;;
           fraudResult ← call (EvDetectFraud claim) (λ n, detectFraud env n claim);
           now ← newDate;
           let claim := applyFraudResult fraudResult now claim in
           (if fr_isFraudulent fraudResult
            then log LogWarn "Claim flagged as fraudulent" claimId
            else mret tt);;
           save claim;;
           log LogInfo "Fraud detection completed for claim" claimId)
          (λ error,
           log LogError "Fraud detection failed for claim" claimId;;
           save (set_fraudCheckCompleted true claim);;
           throw error)
  end.

(** [runFraudDetectionAsync] (lines 357-366): [setTimeout(callback, 0)]
    only queues the callback. *)
Definition runFraudDetectionAsync (claimId : Z) : M unit := λ w,
  (mkWorld (store w) (nextId w) (trace w) (logs w) (timers w ++ [claimId]), inr tt).

(** The event loop running the oldest queued callback: [runFraudDetection]
    with every error swallowed (lines 359-365). *)
Definition runTimer : M unit := λ w,
  match timers w with
  | [] => (w, inr tt)
  | claimId :: rest =>
      try_catch (runFraudDetection claimId) (λ _, mret tt)
                (mkWorld (store w) (nextId w) (trace w) (logs w) rest)
  end.

(** [create] (lines 33-65). *)
Definition create (dto : CreateClaimDto) (uid : string) : M RetVal :=
  savedClaim ← save_new (repository_create dto uid);
  try_catch
    (user ← call (EvFindUser uid) (λ n, userService_findOne env n uid);
     match user with
     | Some u =>
         call (EvNotifySubmitted savedClaim u)
              (λ n, sendClaimSubmittedNotification env n savedClaim u)
     | None => mret tt
     end)
    (λ error,
     log LogError "Failed to send claim submission notification for claim"
         (id savedClaim));;
  runFraudDetectionAsync (id savedClaim);;
  mret (RetDto savedClaim).

(** [Object.assign(claim, updateClaimDto)]: the properties present in the
    DTO overwrite the claim's. *)
Definition assign_dto (dto : UpdateClaimDto) (c : Claim) : Claim :=
  let c := match uc_status dto with Some s => set_status s c | None => c end in
  match uc_description dto with Some d => set_description d c | None => c end.

(** The [remarks] property of the status notice (line 142): an absent or
    empty description gives [undefined]. *)
Definition remarks_of (dto : UpdateClaimDto) : option string :=
  match uc_description dto with
  | Some d => if String.eqb d "" then None else Some ("Updated description: " +:+ d)
  | None => None
  end.

(** [update] (lines 107-159).  In the [catch] block the argument of
    [logger.error] reads [previousUser.id]; with no joined user that read
    throws a [TypeError] out of the handler. *)
Definition update (claimId : Z) (dto : UpdateClaimDto) (uid : option string)
    (isAdmin : bool) : M RetVal :=
  found ← findOneWithUser claimId;
  match found with
  | None =>
      throw (NotFoundException ("Claim with ID " +:+ pretty claimId +:+ " not found"))
  | Some (claim, previousUser) =>
      if negb isAdmin then
        throw (ForbiddenException "Only administrators can update claims")
      else
        let previousStatus := status claim in
        updatedClaim ← save (assign_dto dto claim);
        match uc_status dto with
        | Some newStatus =>
            if ClaimStatus_eqb previousStatus newStatus then mret tt
            else
              let notice := mkStatusNotice updatedClaim previousUser previousStatus
                                           newStatus (remarks_of dto) in
              try_catch
                (call (EvNotifyStatus notice)
                      (λ n, sendClaimStatusNotification env n notice))
                (λ error,
                 match previousUser with
                 | Some _ =>
                     log LogError "Failed to send status change notification for claim"
                         (id updatedClaim)
                 | None =>
                     throw (TypeError "Cannot read properties of undefined (reading 'id')")
                 end)
        | None => mret tt
        end;;
        mret (RetDto updatedClaim)
  end.

(** [getClaimStats] (lines 176-200). *)
Definition getClaimStats : M ClaimStats := λ w,
  let total := count (λ _, true) w in
  let pending := count (λ c, ClaimStatus_eqb (status c) PENDING) w in
  let approved := count (λ c, ClaimStatus_eqb (status c) APPROVED) w in
  let rejected := count (λ c, ClaimStatus_eqb (status c) REJECTED) w in
  let flagged := count (λ c, ClaimStatus_eqb (status c) FLAGGED) w in
  let fraudulent := count isFraudulent w in
  let completed := count fraudCheckCompleted w in
  (w, inr (mkClaimStats total pending approved rejected flagged fraudulent
                        completed (total - completed))).

(** The conditional of lines 240-245. *)
Definition verdictStatus (verdict : string) : ClaimStatus :=
  if String.eqb verdict "approved" then APPROVED
  else if String.eqb verdict "rejected" then REJECTED
  else PENDING.

(** [processClaim] (lines 202-291).  The method has no [return] with a
    value: its promise resolves to [undefined] on every path. *)
Definition processClaim (claimId : Z) : M RetVal :=
  found ← findOneWithUser claimId;
  match found with
  | None => throw (NotFoundException "Claim not found or already processed")
  | Some (claim, user) =>
      if negb (ClaimStatus_eqb (status claim) PENDING) then
        throw (NotFoundException "Claim not found or already processed")
      else
        try_catch
          (claim ←
             (if fraudCheckCompleted claim then mret claim
              else
                runFraudDetection claimId;;
                updatedClaim ← findOne claimId;
                (* Object.assign(claim, updatedClaim): every column is
                   overwritten, the joined user stays *)
                mret (default claim updatedClaim));
           if isFraudulent claim then
             log LogWarn "Claim flagged as fraudulent, skipping oracle verification"
                 claimId;;
             mret RetVoid
           else
             verdict ← call (EvVerifyClaim (id claim) (description claim))
                            (λ n, verifyClaim env n (id claim) (description claim));
             now ← newDate;
             let claim := set_oracleData (mkOracleData now verdict)
                            (set_status (verdictStatus verdict) claim) in
             updatedClaim ← save claim;
             match user with
             | Some u =>
                 try_catch
                   (call (EvNotifyProcessing updatedClaim u verdict)
                         (λ n, sendClaimProcessingNotification env n updatedClaim u verdict))
                   (λ error,
                    log LogError "Failed to send processing notification for claim"
                        claimId)
             | None => mret tt
             end;;
             log LogInfo "Claim processed successfully with verdict" claimId;;
             mret RetVoid)
          (λ error,
           log LogError "Failed to process claim" claimId;;
           throw error)
  end.

(** [getFraudDetectionStatus] (lines 371-380). *)
Definition getFraudDetectionStatus : M ServiceStatus :=
  try_catch
    (match getServiceStatus env with
     | Some status_call => call EvServiceStatus status_call
     | None => mret (mkServiceStatus true (Some "Service status check not implemented"))
     end)
    (λ error, mret (mkServiceStatus false (Some (message error)))).

End Service.

(** ** The remaining methods of the service *)

(** The negation of [claim.userId !== userId]: the caller passed a user id
    and it is the owner's.  An omitted [userId] is [undefined] and differs
    from every owner. *)
Definition same_user (c : Claim) (uid : option string) : bool :=
  match uid with
  | Some u => String.eqb (userId c) u
  | None => false
  end.

(** [claimRepository.remove(claim)]: the row leaves the table.  The trace
    keeps saves and collaborator calls; a removal shows in the store. *)
Definition repository_remove (c : Claim) : M unit := λ w,
  (mkWorld (delete (id c) (store w)) (nextId w) (trace w) (logs w) (timers w), inr tt).

(** [remove] (lines 161-174). *)
Definition remove (claimId : Z) (uid : option string) (isAdmin : bool) : M unit :=
  found ← findOne claimId;
  match found with
  | None =>
      throw (NotFoundException ("Claim with ID " +:+ pretty claimId +:+ " not found"))
  | Some claim =>
      if negb isAdmin && negb (same_user claim uid) then
        throw (ForbiddenException "You can only delete your own claims")
      else repository_remove claim
  end.

Section Access.

Variable env : Env.

(** The service's [findOne] (lines 85-105); the repository's is [findOne]
    above. *)
Definition service_findOne (claimId : Z) (uid : option string) (isAdmin : bool)
    : M RetVal :=
  found ← findOneWithUser env claimId;
  match found with
  | None =>
      throw (NotFoundException ("Claim with ID " +:+ pretty claimId +:+ " not found"))
  | Some (claim, _) =>
      if negb isAdmin && negb (same_user claim uid) then
        throw (ForbiddenException "You can only access your own claims")
      else mret (RetDto claim)
  end.

End Access.

Section Listing.

(** Modelled from the spec: the [createdAt] column is not among the
    columns the service writes; the spec has it managed by the store.  It
    is taken as the creation time the store keeps for each claim id. *)
Variable createdAt : Z → Z.

(** [order: { createdAt: 'DESC' }] *)
Definition newest_first (a b : Claim) : Prop := createdAt (id b) ≤ createdAt (id a).

#[global] Instance newest_first_dec a b : Decision (newest_first a b).
Proof. unfold newest_first. apply _. Defined.

(** [claimRepository.find({ where, order: { createdAt: 'DESC' } })].  Rows
    created at the same time come in the order the sort leaves them; the
    store promises none. *)
Definition repository_find (p : Claim → bool) : M (list Claim) := λ w,
  (w, inr (merge_sort newest_first (List.filter p (map_to_list (store w)).*2))).

(** [findAllByUser] (lines 67-74). *)
Definition findAllByUser (uid : string) : M (list RetVal) :=
  claims ← repository_find (λ c, String.eqb (userId c) uid);
  mret (RetDto <$> claims).

(** [findAll] (lines 76-83). *)
Definition findAll : M (list RetVal) :=
  claims ← repository_find (λ _, true);
  mret (RetDto <$> claims).

End Listing.

(** ** Vocabulary of the statements *)

(** The row [c] is stored under [claimId], and carries that key as its
    primary key. *)
Definition stored (w : World) (claimId : Z) (c : Claim) : Prop :=
  store w !! claimId = Some c ∧ id c = claimId.

(** Number of repository writes of the claim [claimId] in a trace. *)
Fixpoint saves_of (claimId : Z) (tr : list Event) : nat :=
  match tr with
  | [] => 0
  | EvSave c :: tr' => (if Z.eqb (id c) claimId then 1 else 0) + saves_of claimId tr'
  | _ :: tr' => saves_of claimId tr'
  end.

(** Number of calls of the fraud detector, of the oracle, in a trace. *)
Fixpoint screener_calls (tr : list Event) : nat :=
  match tr with
  | [] => 0
  | EvDetectFraud _ :: tr' => S (screener_calls tr')
  | _ :: tr' => screener_calls tr'
  end.

Fixpoint oracle_calls (tr : list Event) : nat :=
  match tr with
  | [] => 0
  | EvVerifyClaim _ _ :: tr' => S (oracle_calls tr')
  | _ :: tr' => oracle_calls tr'
  end.

(** The row a successful screening of [c] writes: [new Date()] is read
    after the detector's call has been recorded. *)
Definition screened (env : Env) (w : World) (c : Claim) (r : FraudResult) : Claim :=
  applyFraudResult r (clock env (S (length (trace w)))) c.

(** The claim as [processClaim] saves it after the oracle answered
    [verdict] at time [now]. *)
Definition judged (verdict : string) (now : Z) (c : Claim) : Claim :=
  set_oracleData (mkOracleData now verdict) (set_status (verdictStatus verdict) c).

(** Events of the best-effort notification that follows a verdict. *)
Definition processing_notice (env : Env) (c c' : Claim) (verdict : string) : list Event :=
  match user_relation env (userId c) with
  | Some u => [EvNotifyProcessing c' u verdict]
  | None => []
  end.

(** Number of rows of a table that satisfy a predicate, read off the map
    itself rather than off its list of rows. *)
Definition rows_where (p : Claim → bool) (s : gmap Z Claim) : Z :=
  Z.of_nat (size (filter (λ kc : Z * Claim, p kc.2 = true) s)).

(** The invariant of the lifecycle, for one row. *)
Definition flag_inv (c : Claim) : Prop :=
  status c = FLAGGED ↔ isFraudulent c = true ∧ fraudCheckCompleted c = true.

(** What induction over the operations needs besides [flag_inv]: only a
    completed screening marks a row fraudulent. *)
Definition claim_ok (c : Claim) : Prop :=
  flag_inv c ∧ (isFraudulent c = true → fraudCheckCompleted c = true).

(** Every row sits under its own id and satisfies [claim_ok]. *)
Definition store_ok (s : gmap Z Claim) : Prop :=
  ∀ k c, s !! k = Some c → id c = k ∧ claim_ok c.

(** The empty system. *)
Definition init_world : World := mkWorld ∅ 1 [] [] [].

(** Worlds reachable through [create], [runFraudDetection] (called
    directly or from the queued callback) and [processClaim]. *)
Inductive reachable (env : Env) : World → Prop :=
| reach_init : reachable env init_world
| reach_create w dto uid :
    reachable env w → reachable env (create env dto uid w).1
| reach_screen w claimId :
    reachable env w → reachable env (runFraudDetection env claimId w).1
| reach_timer w :
    reachable env w → reachable env (runTimer env w).1
| reach_process w claimId :
    reachable env w → reachable env (processClaim env claimId w).1.

(** The same collaborators, with a notifier that never fails. *)
Definition quiet_notifier (env : Env) : Env :=
  mkEnv (detectFraud env) (getServiceStatus env) (verifyClaim env)
        (userService_findOne env)
        (λ _ _ _, inr tt) (λ _ _, inr tt) (λ _ _ _ _, inr tt)
        (user_relation env) (clock env).

(** Two runs agree on what was persisted, on what was called and on what
    the caller gets back; only the logger output may differ. *)
Definition same_outcome {A} (r r' : World * (exn + A)) : Prop :=
  store r.1 = store r'.1 ∧ nextId r.1 = nextId r'.1 ∧ trace r.1 = trace r'.1 ∧
  timers r.1 = timers r'.1 ∧ r.2 = r'.2.

(** ** Concrete collaborators and worlds *)

(** Collaborators with fixed answers; the user table knows ["u1"] only. *)
Definition fixed_env (screener : exn + FraudResult) (oracle : exn + string)
    (notifier : exn + unit) : Env :=
  mkEnv (λ _ _, screener) None (λ _ _ _, oracle)
        (λ _ uid, inr (if String.eqb uid "u1" then Some (mkUser "u1" "u1@example.org") else None))
        (λ _ _ _, notifier) (λ _ _, notifier) (λ _ _ _ _, notifier)
        (λ uid, if String.eqb uid "u1" then Some (mkUser "u1" "u1@example.org") else None)
        (λ n, 1000 + Z.of_nat n).

Definition legitimate : FraudResult := mkFraudResult false (1 # 10) "no indicators" None.

Definition fraudulent : FraudResult :=
  mkFraudResult true (9 # 10) "duplicate submission"
    (Some (mkFraudMetadata (Some ["duplicate"]) (Some "v1") (Some 42))).

Definition env_ok : Env := fixed_env (inr legitimate) (inr "approved") (inr tt).
Definition env_maybe : Env := fixed_env (inr legitimate) (inr "maybe") (inr tt).
Definition env_fraud : Env := fixed_env (inr fraudulent) (inr "approved") (inr tt).
Definition env_screener_down : Env :=
  fixed_env (inl (Error "screener unavailable")) (inr "approved") (inr tt).
Definition env_oracle_down : Env :=
  fixed_env (inr legitimate) (inl (Error "oracle unavailable")) (inr tt).
Definition env_notifier_down : Env :=
  fixed_env (inr legitimate) (inr "approved") (inl (Error "smtp unavailable")).

(** A detector that implements [getServiceStatus] with a fixed answer. *)
Definition env_status (ans : exn + ServiceStatus) : Env :=
  mkEnv (detectFraud env_ok) (Some (λ _, ans)) (verifyClaim env_ok)
        (userService_findOne env_ok) (sendClaimSubmittedNotification env_ok)
        (sendClaimStatusNotification env_ok) (sendClaimProcessingNotification env_ok)
        (user_relation env_ok) (clock env_ok).

Definition water_damage : CreateClaimDto := mkCreateClaimDto "water damage".

(** One freshly created claim, id 1, owner ["u1"]. *)
Definition one_claim (env : Env) : World := (create env water_damage "u1" init_world).1.

(** The row of that claim as created. *)
Definition fresh_row : Claim := repository_create water_damage "u1" 1.

(** The claim after a completed, negative screening. *)
Definition cleared_claim (env : Env) : World := (runFraudDetection env 1 (one_claim env)).1.

(** A claim screened as fraudulent and then put back to Pending by an
    administrator through [update]. *)
Definition reset_to_pending : World :=
  (update env_fraud 1 (mkUpdateClaimDto (Some PENDING) None) None true
          (runFraudDetection env_fraud 1 (one_claim env_fraud)).1).1.

(** A claim an administrator has approved by hand. *)
Definition approved_by_admin : World :=
  (update env_ok 1 (mkUpdateClaimDto (Some APPROVED) None) None true (one_claim env_ok)).1.

(** A claim whose owner is not in the user table. *)
Definition orphan_claim (env : Env) : World := (create env water_damage "u2" init_world).1.

(** ** Vocabulary of the further properties *)

(** Number of notifier calls in a trace. *)
Fixpoint notifier_calls (tr : list Event) : nat :=
  match tr with
  | [] => 0
  | (EvNotifySubmitted _ _ | EvNotifyStatus _ | EvNotifyProcessing _ _ _) :: tr' =>
      S (notifier_calls tr')
  | _ :: tr' => notifier_calls tr'
  end.

(** The world [w] after more effects: a new table, further trace entries
    and further log entries; ids and timers as in [w]. *)
Definition after (w : World) (s : gmap Z Claim) (tr : list Event) (l : list LogEntry)
    : World :=
  mkWorld s (nextId w) (trace w ++ tr) (logs w ++ l) (timers w).

(** The three writes the lifecycle performs on a row: the result of a
    screening, the mark left by a failed screening, and a verdict. *)
Inductive row_step : Claim → Claim → Prop :=
| step_screened r now c :
    fraudCheckCompleted c = false → row_step c (applyFraudResult r now c)
| step_failed c :
    fraudCheckCompleted c = false → row_step c (set_fraudCheckCompleted true c)
| step_judged verdict now c :
    status c = PENDING → fraudCheckCompleted c = true → isFraudulent c = false →
    row_step c (judged verdict now c).

(** A table after at most two such writes on the row [k]. *)
Definition store_steps (k : Z) (s s' : gmap Z Claim) : Prop :=
  s' = s ∨
  ∃ c c1, s !! k = Some c ∧ row_step c c1 ∧
    (s' = <[k := c1]> s ∨ ∃ c2, row_step c1 c2 ∧ s' = <[k := c2]> s).

(** One operation of the lifecycle. *)
Inductive lifecycle_step (env : Env) (w : World) : World → Prop :=
| ls_create dto uid : lifecycle_step env w (create env dto uid w).1
| ls_screen claimId : lifecycle_step env w (runFraudDetection env claimId w).1
| ls_timer : lifecycle_step env w (runTimer env w).1
| ls_process claimId : lifecycle_step env w (processClaim env claimId w).1.

(** What every row of a reachable table satisfies, besides [claim_ok]. *)
Definition row_inv (c : Claim) : Prop :=
  claim_ok c ∧
  (status c ≠ PENDING → fraudCheckCompleted c = true) ∧
  (∀ d, oracleData c = Some d →
     fraudCheckCompleted c = true ∧ isFraudulent c = false ∧
     status c = verdictStatus (od_verdict d)) ∧
  (status c = APPROVED ∨ status c = REJECTED → is_Some (oracleData c)) ∧
  (isFraudulent c = true →
     is_Some (fraudDetectionData c) ∧ is_Some (fraudConfidenceScore c)) ∧
  (is_Some (fraudDetectionData c) ∨ is_Some (fraudConfidenceScore c) →
     fraudCheckCompleted c = true).

Definition world_inv (w : World) : Prop :=
  ∀ k c, store w !! k = Some c → id c = k ∧ k < nextId w ∧ row_inv c.

(** Creation times for the listing examples: newer claims have larger ids. *)
Definition by_id : Z → Z := λ k, k.

(** Three claims: two of "u1" around one of "u2". *)
Definition three_claims : World :=
  (create env_ok (mkCreateClaimDto "hail") "u1"
     (create env_ok (mkCreateClaimDto "theft") "u2"
        (create env_ok water_damage "u1" init_world).1).1).1.

(** ** Symbolic execution of the methods *)

Ltac unfold_M :=
  unfold findOneWithUser in *;
  unfold mbind, mret, M_bind, M_ret, try_catch, throw, call, emit, log,
         findOne, save, newDate in *.

Lemma saves_of_app claimId tr1 tr2 :
  saves_of claimId (tr1 ++ tr2) = (saves_of claimId tr1 + saves_of claimId tr2)%nat.
Proof.
  induction tr1 as [|ev tr1 IH]; [done|].
  destruct ev; cbn; rewrite IH; lia.
Qed.

Lemma screener_calls_app tr1 tr2 :
  screener_calls (tr1 ++ tr2) = (screener_calls tr1 + screener_calls tr2)%nat.
Proof.
  induction tr1 as [|ev tr1 IH]; [done|].
  destruct ev; cbn; rewrite IH; lia.
Qed.

Lemma oracle_calls_app tr1 tr2 :
  oracle_calls (tr1 ++ tr2) = (oracle_calls tr1 + oracle_calls tr2)%nat.
Proof.
  induction tr1 as [|ev tr1 IH]; [done|].
  destruct ev; cbn; rewrite IH; lia.
Qed.

Lemma id_applyFraudResult r now c : id (applyFraudResult r now c) = id c.
Proof. unfold applyFraudResult. by destruct (fr_isFraudulent r). Qed.

Lemma runFraudDetection_missing env w claimId :
  store w !! claimId = None →
  runFraudDetection env claimId w =
    (w, inl (NotFoundException ("Claim with ID " +:+ pretty claimId +:+ " not found"))).
Proof. intros H. unfold runFraudDetection. unfold_M. by rewrite H. Qed.

Lemma runFraudDetection_done env w claimId c :
  store w !! claimId = Some c →
  fraudCheckCompleted c = true →
  runFraudDetection env claimId w =
    (mkWorld (store w) (nextId w) (trace w)
       (logs w ++ [mkLog LogWarn "Fraud detection already completed for claim" claimId])
       (timers w), inr tt).
Proof. intros H Hc. unfold runFraudDetection. unfold_M. by rewrite H, Hc. Qed.

Lemma runFraudDetection_ok env w claimId c r :
  store w !! claimId = Some c →
  fraudCheckCompleted c = false →
  detectFraud env (length (trace w)) c = inr r →
  ∃ l, runFraudDetection env claimId w =
    (mkWorld (<[id c := screened env w c r]> (store w)) (nextId w)
       (trace w ++ [EvDetectFraud c; EvSave (screened env w c r)])
       (logs w ++ l) (timers w), inr tt).
Proof.
  intros H Hc Hd. unfold runFraudDetection, screened. unfold_M.
  rewrite H, Hc. cbn. rewrite Hd. cbn.
  rewrite length_app, Nat.add_1_r.
  destruct (fr_isFraudulent r) eqn:Hf; cbn;
    rewrite id_applyFraudResult, <- !app_assoc; cbn; eexists; reflexivity.
Qed.

Lemma runFraudDetection_fail env w claimId c e :
  store w !! claimId = Some c →
  fraudCheckCompleted c = false →
  detectFraud env (length (trace w)) c = inl e →
  runFraudDetection env claimId w =
    (mkWorld (<[id c := set_fraudCheckCompleted true c]> (store w)) (nextId w)
       (trace w ++ [EvDetectFraud c; EvSave (set_fraudCheckCompleted true c)])
       (logs w ++ [mkLog LogInfo "Starting fraud detection for claim" claimId;
                   mkLog LogError "Fraud detection failed for claim" claimId])
       (timers w), inl e).
Proof.
  intros H Hc Hd. unfold runFraudDetection. unfold_M.
  rewrite H, Hc. cbn. rewrite Hd. cbn.
  by rewrite <- !app_assoc.
Qed.

Lemma stored_lookup w claimId c : stored w claimId c → store w !! claimId = Some c.
Proof. by intros [H _]. Qed.

Lemma ClaimStatus_eqb_eq a b : ClaimStatus_eqb a b = true ↔ a = b.
Proof. destruct a, b; cbn; split; congruence. Qed.

Lemma processClaim_rejects env w claimId :
  (∀ c, store w !! claimId = Some c → status c ≠ PENDING) →
  processClaim env claimId w =
    (w, inl (NotFoundException "Claim not found or already processed")).
Proof.
  intros H. unfold processClaim. unfold_M.
  destruct (store w !! claimId) as [c|] eqn:Hc; cbn; [|done].
  specialize (H c eq_refl).
  destruct (ClaimStatus_eqb (status c) PENDING) eqn:Hs; [|done].
  by apply ClaimStatus_eqb_eq in Hs.
Qed.

Lemma applyFraudResult_fields r now c :
  let c' := applyFraudResult r now c in
  id c' = id c ∧ userId c' = userId c ∧ description c' = description c ∧
  fraudCheckCompleted c' = true ∧ isFraudulent c' = fr_isFraudulent r ∧
  oracleData c' = oracleData c ∧
  fraudDetectionData c' = Some (mkDetectionData r now) ∧
  status c' = (if fr_isFraudulent r then FLAGGED else status c).
Proof. unfold applyFraudResult. by destruct (fr_isFraudulent r). Qed.

Ltac screened_fields env w c r :=
  destruct (applyFraudResult_fields r (clock env (S (length (trace w)))) c)
    as (Hid' & Huid' & Hdesc' & Hcompl' & Hfraud' & Horacle' & Hdata' & Hstatus');
  fold (screened env w c r) in Hid', Huid', Hdesc', Hcompl', Hfraud', Horacle',
                                 Hdata', Hstatus'.

Lemma processClaim_prior_fraud env w claimId c :
  stored w claimId c → status c = PENDING →
  fraudCheckCompleted c = true → isFraudulent c = true →
  ∃ l, processClaim env claimId w =
    (mkWorld (store w) (nextId w) (trace w) (logs w ++ l) (timers w), inr RetVoid).
Proof.
  intros [Hl Hid] Hs Hc Hf. unfold processClaim. unfold_M.
  rewrite Hl. cbn. rewrite Hs, Hc. cbn. rewrite Hf. cbn.
  eexists; reflexivity.
Qed.

Lemma processClaim_flags env w claimId c r :
  stored w claimId c → status c = PENDING →
  fraudCheckCompleted c = false →
  detectFraud env (length (trace w)) c = inr r →
  fr_isFraudulent r = true →
  ∃ l, processClaim env claimId w =
    (mkWorld (<[claimId := screened env w c r]> (store w)) (nextId w)
       (trace w ++ [EvDetectFraud c; EvSave (screened env w c r)])
       (logs w ++ l) (timers w), inr RetVoid).
Proof.
  intros [Hl Hid] Hs Hc Hd Hf. unfold processClaim. unfold_M.
  rewrite Hl. cbn. rewrite Hs, Hc. cbn.
  destruct (runFraudDetection_ok env w claimId c r Hl Hc Hd) as [l ->]. cbn.
  screened_fields env w c r.
  rewrite Hid, lookup_insert_eq. cbn. rewrite Hfraud', Hf. cbn.
  rewrite <- app_assoc. eexists; reflexivity.
Qed.

Lemma processClaim_screening_fails env w claimId c e :
  stored w claimId c → status c = PENDING →
  fraudCheckCompleted c = false →
  detectFraud env (length (trace w)) c = inl e →
  ∃ l, processClaim env claimId w =
    (mkWorld (<[claimId := set_fraudCheckCompleted true c]> (store w)) (nextId w)
       (trace w ++ [EvDetectFraud c; EvSave (set_fraudCheckCompleted true c)])
       (logs w ++ l) (timers w), inl e).
Proof.
  intros [Hl Hid] Hs Hc Hd. unfold processClaim. unfold_M.
  rewrite Hl. cbn. rewrite Hs, Hc. cbn.
  rewrite (runFraudDetection_fail env w claimId c e Hl Hc Hd). cbn.
  rewrite Hid, <- app_assoc. eexists; reflexivity.
Qed.

Lemma processClaim_screened_verdict env w claimId c verdict :
  stored w claimId c → status c = PENDING →
  fraudCheckCompleted c = true → isFraudulent c = false →
  verifyClaim env (length (trace w)) claimId (description c) = inr verdict →
  let c' := judged verdict (clock env (S (length (trace w)))) c in
  ∃ l, processClaim env claimId w =
    (mkWorld (<[claimId := c']> (store w)) (nextId w)
       (trace w ++ [EvVerifyClaim claimId (description c); EvSave c']
                ++ processing_notice env c c' verdict)
       (logs w ++ l) (timers w), inr RetVoid).
Proof.
  intros [Hl Hid] Hs Hc Hf Hv c'. unfold processClaim, processing_notice. unfold_M.
  rewrite Hl. cbn. rewrite Hs, Hc. cbn. rewrite Hf. cbn.
  rewrite Hid, Hv. cbn.
  rewrite length_app, Nat.add_1_r.
  fold (judged verdict (clock env (S (length (trace w)))) c). fold c'.
  destruct (user_relation env (userId c)) as [u|]; cbn.
  - destruct (sendClaimProcessingNotification _ _ _ _ _) as [e|[]]; cbn;
      rewrite <- !app_assoc; cbn; eexists; reflexivity.
  - rewrite <- !app_assoc; cbn; eexists; reflexivity.
Qed.

Lemma processClaim_screened_oracle_fails env w claimId c e :
  stored w claimId c → status c = PENDING →
  fraudCheckCompleted c = true → isFraudulent c = false →
  verifyClaim env (length (trace w)) claimId (description c) = inl e →
  ∃ l, processClaim env claimId w =
    (mkWorld (store w) (nextId w)
       (trace w ++ [EvVerifyClaim claimId (description c)])
       (logs w ++ l) (timers w), inl e).
Proof.
  intros [Hl Hid] Hs Hc Hf Hv. unfold processClaim. unfold_M.
  rewrite Hl. cbn. rewrite Hs, Hc. cbn. rewrite Hf. cbn.
  rewrite Hid, Hv. cbn. eexists; reflexivity.
Qed.

Lemma processClaim_fresh_verdict env w claimId c r verdict :
  stored w claimId c → status c = PENDING →
  fraudCheckCompleted c = false →
  detectFraud env (length (trace w)) c = inr r →
  fr_isFraudulent r = false →
  verifyClaim env (length (trace w) + 2) claimId (description c) = inr verdict →
  let c1 := screened env w c r in
  let c' := judged verdict (clock env (length (trace w) + 3)) c1 in
  ∃ l, processClaim env claimId w =
    (mkWorld (<[claimId := c']> (store w)) (nextId w)
       (trace w ++ [EvDetectFraud c; EvSave c1;
                    EvVerifyClaim claimId (description c); EvSave c']
                ++ processing_notice env c c' verdict)
       (logs w ++ l) (timers w), inr RetVoid).
Proof.
  intros [Hl Hid] Hs Hc Hd Hf Hv c1 c'. unfold processClaim, processing_notice. unfold_M.
  rewrite Hl. cbn. rewrite Hs, Hc. cbn.
  destruct (runFraudDetection_ok env w claimId c r Hl Hc Hd) as [l ->]. cbn.
  screened_fields env w c r. fold c1 in Hid', Huid', Hdesc', Hcompl', Hfraud', Horacle', Hdata', Hstatus' |- *.
  rewrite Hid, lookup_insert_eq. cbn. rewrite Hfraud', Hf. cbn.
  rewrite Hid', Hid, Hdesc'.
  rewrite !length_app. cbn [length].
  rewrite Hv. cbn.
  replace (length (trace w) + 2 + 1)%nat with (length (trace w) + 3)%nat by lia.
  fold (judged verdict (clock env (length (trace w) + 3)) c1). fold c'.
  rewrite insert_insert_eq.
  destruct (user_relation env (userId c)) as [u|]; cbn.
  - destruct (sendClaimProcessingNotification _ _ _ _ _) as [e|[]]; cbn;
      rewrite <- !app_assoc; cbn; eexists; reflexivity.
  - rewrite <- !app_assoc; cbn; eexists; reflexivity.
Qed.

Lemma processClaim_fresh_oracle_fails env w claimId c r e :
  stored w claimId c → status c = PENDING →
  fraudCheckCompleted c = false →
  detectFraud env (length (trace w)) c = inr r →
  fr_isFraudulent r = false →
  verifyClaim env (length (trace w) + 2) claimId (description c) = inl e →
  let c1 := screened env w c r in
  ∃ l, processClaim env claimId w =
    (mkWorld (<[claimId := c1]> (store w)) (nextId w)
       (trace w ++ [EvDetectFraud c; EvSave c1;
                    EvVerifyClaim claimId (description c)])
       (logs w ++ l) (timers w), inl e).
Proof.
  intros [Hl Hid] Hs Hc Hd Hf Hv c1. unfold processClaim. unfold_M.
  rewrite Hl. cbn. rewrite Hs, Hc. cbn.
  destruct (runFraudDetection_ok env w claimId c r Hl Hc Hd) as [l ->]. cbn.
  screened_fields env w c r. fold c1 in Hid', Huid', Hdesc', Hcompl', Hfraud', Horacle', Hdata', Hstatus' |- *.
  rewrite Hid, lookup_insert_eq. cbn. rewrite Hfraud', Hf. cbn.
  rewrite Hid', Hid, Hdesc'.
  rewrite !length_app. cbn [length].
  rewrite Hv. cbn.
  rewrite <- !app_assoc; cbn; eexists; reflexivity.
Qed.

(** ** Rejected calls of [processClaim] *)

(** C2, as the code has it: whenever the claim is missing or is not
    Pending, [processClaim] throws the one exception of line 209, a
    [NotFoundException] with the message "Claim not found or already
    processed" in both cases, and the world (store, trace, log, timers) is
    exactly the one it started from. *)
Theorem processClaim_not_pending_is_NotFound env w claimId :
  (∀ c, store w !! claimId = Some c → status c ≠ PENDING) →
  ∃ e, processClaim env claimId w = (w, inl e) ∧
       e = NotFoundException "Claim not found or already processed" ∧
       kind_of e = NotFound.
Proof.
  intros H. eexists. split; [by apply processClaim_rejects|]. by split.
Qed.

Lemma processClaim_not_pending_is_NotFound_witness :
  (∀ c, store approved_by_admin !! 1 = Some c → status c ≠ PENDING) ∧
  (∀ c, store init_world !! 7 = Some c → status c ≠ PENDING) ∧
  (∃ e, processClaim env_ok 1 approved_by_admin = (approved_by_admin, inl e) ∧
        e = NotFoundException "Claim not found or already processed" ∧
        kind_of e = NotFound) ∧
  (∃ e, processClaim env_ok 7 init_world = (init_world, inl e) ∧
        e = NotFoundException "Claim not found or already processed" ∧
        kind_of e = NotFound).
Proof.
  assert (H1 : ∀ c, store approved_by_admin !! 1 = Some c → status c ≠ PENDING).
  { intros c Hc. vm_compute in Hc. injection Hc as <-. discriminate. }
  assert (H2 : ∀ c, store init_world !! 7 = Some c → status c ≠ PENDING).
  { intros c Hc. vm_compute in Hc. discriminate. }
  split; [exact H1|]. split; [exact H2|]. split.
  - exact (processClaim_not_pending_is_NotFound env_ok approved_by_admin 1 H1).
  - exact (processClaim_not_pending_is_NotFound env_ok init_world 7 H2).
Defined.

(** C2, counterexample to the claim as stated: claim 1 exists and is
    Approved, and [processClaim] fails on it with the very exception it
    throws for the missing id 7, a [NotFoundException]; its kind is
    NotFound, not InvalidState. *)
Lemma processClaim_approved_not_InvalidState :
  (∃ c, stored approved_by_admin 1 c ∧ status c = APPROVED) ∧
  store approved_by_admin !! 7 = None ∧
  ∃ e, processClaim env_ok 1 approved_by_admin = (approved_by_admin, inl e) ∧
       processClaim env_ok 7 approved_by_admin = (approved_by_admin, inl e) ∧
       e = NotFoundException "Claim not found or already processed" ∧
       kind_of e = NotFound ∧ kind_of e ≠ InvalidState.
Proof.
  split; [|split].
  - eexists. split; [split|]; vm_compute; reflexivity.
  - vm_compute. reflexivity.
  - eexists. split; [vm_compute; reflexivity|].
    split; [vm_compute; reflexivity|].
    split; [reflexivity|]. split; [reflexivity|discriminate].
Qed.

(** ** Fraud screening *)

(** C3: when the fraud detector throws on a claim that has not been
    screened, [runFraudDetection] throws the same error, and the row it
    leaves in the store is the loaded row with [fraudCheckCompleted] set:
    [isFraudulent], [status] and every other column are as before, and no
    other row is touched. *)
Theorem runFraudDetection_screener_failure env w claimId c e :
  stored w claimId c →
  fraudCheckCompleted c = false →
  detectFraud env (length (trace w)) c = inl e →
  ∃ w' c',
    runFraudDetection env claimId w = (w', inl e) ∧
    store w' = <[claimId := c']> (store w) ∧
    c' = set_fraudCheckCompleted true c ∧
    fraudCheckCompleted c' = true ∧
    isFraudulent c' = isFraudulent c ∧
    status c' = status c ∧
    saves_of claimId (trace w') = S (saves_of claimId (trace w)).
Proof.
  intros [Hl Hid] Hc Hd.
  rewrite (runFraudDetection_fail env w claimId c e Hl Hc Hd).
  eexists _, _. split; [reflexivity|]. cbn. rewrite Hid.
  repeat split; try reflexivity.
  rewrite saves_of_app. cbn. rewrite Hid, Z.eqb_refl. lia.
Qed.

Lemma runFraudDetection_screener_failure_witness :
  stored (one_claim env_screener_down) 1 fresh_row ∧
  fraudCheckCompleted fresh_row = false ∧
  ∃ w' c',
    runFraudDetection env_screener_down 1 (one_claim env_screener_down)
      = (w', inl (Error "screener unavailable")) ∧
    store w' = <[1 := c']> (store (one_claim env_screener_down)) ∧
    c' = set_fraudCheckCompleted true fresh_row ∧
    fraudCheckCompleted c' = true ∧
    isFraudulent c' = isFraudulent fresh_row ∧
    status c' = status fresh_row ∧
    saves_of 1 (trace w') = S (saves_of 1 (trace (one_claim env_screener_down))).
Proof.
  assert (Hs : stored (one_claim env_screener_down) 1 fresh_row)
    by (split; vm_compute; reflexivity).
  split; [exact Hs|]. split; [reflexivity|].
  exact (runFraudDetection_screener_failure env_screener_down _ 1 fresh_row
           (Error "screener unavailable") Hs eq_refl eq_refl).
Defined.

(** C7: [runFraudDetection] runs the screening at most once per claim.
    (1) On a claim whose [fraudCheckCompleted] is set it returns normally
    without any repository write or collaborator call.  (2) Two calls in a
    row on an unscreened claim, with a detector that always answers, both
    return normally; together they call the detector once and write the
    claim once, and the second call leaves store and trace as the first
    left them.  (3) On an id with no row it throws [NotFoundException] and
    changes nothing. *)
Theorem runFraudDetection_idempotent env w claimId :
  (∀ c, stored w claimId c → fraudCheckCompleted c = true →
     ∃ w', runFraudDetection env claimId w = (w', inr tt) ∧
           store w' = store w ∧ trace w' = trace w) ∧
  (∀ c, stored w claimId c → fraudCheckCompleted c = false →
     (∀ n c0, ∃ r, detectFraud env n c0 = inr r) →
     ∃ w1 w2 c1,
       runFraudDetection env claimId w = (w1, inr tt) ∧
       runFraudDetection env claimId w1 = (w2, inr tt) ∧
       store w1 !! claimId = Some c1 ∧ fraudCheckCompleted c1 = true ∧
       is_Some (fraudDetectionData c1) ∧
       store w2 = store w1 ∧ trace w2 = trace w1 ∧
       saves_of claimId (trace w2) = S (saves_of claimId (trace w)) ∧
       screener_calls (trace w2) = S (screener_calls (trace w))) ∧
  (store w !! claimId = None →
     ∃ msg, runFraudDetection env claimId w = (w, inl (NotFoundException msg)) ∧
            msg = "Claim with ID " +:+ pretty claimId +:+ " not found").
Proof.
  split; [|split].
  - intros c [Hl _] Hc. rewrite (runFraudDetection_done env w claimId c Hl Hc).
    eexists. by split.
  - intros c [Hl Hid] Hc Hsucc.
    destruct (Hsucc (length (trace w)) c) as [r Hr].
    destruct (runFraudDetection_ok env w claimId c r Hl Hc Hr) as [l Hrun].
    screened_fields env w c r.
    eexists _, _, (screened env w c r). split; [exact Hrun|].
    split; [|split; [|split; [|split; [|split; [|split; [|split]]]]]].
    + erewrite runFraudDetection_done; [reflexivity| |exact Hcompl'].
      cbn. rewrite Hid. apply lookup_insert_eq.
    + cbn. rewrite Hid. apply lookup_insert_eq.
    + exact Hcompl'.
    + rewrite Hdata'. eauto.
    + reflexivity.
    + reflexivity.
    + cbn. rewrite saves_of_app. cbn. rewrite Hid', Hid, Z.eqb_refl. lia.
    + cbn. rewrite screener_calls_app. cbn. lia.
  - intros Hn. eexists. split; [by apply runFraudDetection_missing|done].
Qed.

Lemma runFraudDetection_idempotent_witness :
  (stored (cleared_claim env_ok) 1 (screened env_ok (one_claim env_ok) fresh_row legitimate) ∧
   ∃ w', runFraudDetection env_ok 1 (cleared_claim env_ok) = (w', inr tt) ∧
         store w' = store (cleared_claim env_ok) ∧
         trace w' = trace (cleared_claim env_ok)) ∧
  (stored (one_claim env_ok) 1 fresh_row ∧
   ∃ w1 w2 c1,
     runFraudDetection env_ok 1 (one_claim env_ok) = (w1, inr tt) ∧
     runFraudDetection env_ok 1 w1 = (w2, inr tt) ∧
     store w1 !! 1 = Some c1 ∧ fraudCheckCompleted c1 = true ∧
     is_Some (fraudDetectionData c1) ∧
     store w2 = store w1 ∧ trace w2 = trace w1 ∧
     saves_of 1 (trace w2) = S (saves_of 1 (trace (one_claim env_ok))) ∧
     screener_calls (trace w2) = S (screener_calls (trace (one_claim env_ok)))) ∧
  (store init_world !! 5 = None ∧
   ∃ msg, runFraudDetection env_ok 5 init_world = (init_world, inl (NotFoundException msg)) ∧
          msg = "Claim with ID " +:+ pretty 5 +:+ " not found").
Proof.
  assert (H1 : stored (cleared_claim env_ok) 1
                 (screened env_ok (one_claim env_ok) fresh_row legitimate))
    by (split; vm_compute; reflexivity).
  assert (H2 : stored (one_claim env_ok) 1 fresh_row)
    by (split; vm_compute; reflexivity).
  split; [|split].
  - split; [exact H1|].
    exact (proj1 (runFraudDetection_idempotent env_ok (cleared_claim env_ok) 1)
                 _ H1 eq_refl).
  - split; [exact H2|].
    exact (proj1 (proj2 (runFraudDetection_idempotent env_ok (one_claim env_ok) 1))
                 _ H2 eq_refl (λ _ _, ex_intro _ legitimate eq_refl)).
  - split; [reflexivity|].
    exact (proj2 (proj2 (runFraudDetection_idempotent env_ok init_world 5)) eq_refl).
Defined.

(** ** Statistics *)

Lemma filter_snd_length (p : Claim → bool) (l : list (Z * Claim)) :
  length (List.filter p (l.*2)) = length (filter (λ kc : Z * Claim, p kc.2 = true) l).
Proof.
  induction l as [|[k c] l IH]; [done|].
  rewrite filter_cons. cbn. destruct (p c) eqn:Hp; cbn.
  - rewrite decide_True by done. cbn. by rewrite IH.
  - rewrite decide_False by (cbn; congruence). done.
Qed.

Lemma NoDup_fst_filter (P : Z * Claim → Prop) `{!∀ x, Decision (P x)}
    (l : list (Z * Claim)) :
  NoDup l.*1 → NoDup (filter P l).*1.
Proof.
  induction l as [|kc l IH]; [done|].
  rewrite fmap_cons, NoDup_cons. intros [Hnotin Hnd].
  rewrite filter_cons. destruct (decide (P kc)); [|by apply IH].
  rewrite fmap_cons, NoDup_cons. split; [|by apply IH].
  intros Hin. apply Hnotin.
  apply list_elem_of_fmap in Hin as [kc' [-> Hin]].
  apply list_elem_of_fmap. exists kc'. split; [done|].
  by apply list_elem_of_filter in Hin as [_ ?].
Qed.

Lemma count_rows_where p w : count p w = rows_where p (store w).
Proof.
  unfold count, rows_where. f_equal.
  rewrite map_filter_alt, map_size_list_to_map
    by apply NoDup_fst_filter, NoDup_fst_map_to_list.
  apply filter_snd_length.
Qed.

Lemma filter_split_length (p : Claim → bool) (l : list Claim) :
  (length (List.filter p l) + length (List.filter (λ c, negb (p c)) l))%nat = length l.
Proof.
  induction l as [|c l IH]; [done|]. cbn. destruct (p c); cbn; lia.
Qed.

Lemma filter_true_length (l : list Claim) :
  length (List.filter (λ _, true) l) = length l.
Proof. induction l as [|c l IH]; [done|]. cbn. by rewrite IH. Qed.

Lemma filter_status_length (l : list Claim) :
  (length (List.filter (λ c, ClaimStatus_eqb (status c) PENDING) l) +
   length (List.filter (λ c, ClaimStatus_eqb (status c) APPROVED) l) +
   length (List.filter (λ c, ClaimStatus_eqb (status c) REJECTED) l) +
   length (List.filter (λ c, ClaimStatus_eqb (status c) FLAGGED) l))%nat = length l.
Proof.
  induction l as [|c l IH]; [done|]. cbn. destruct (status c); cbn; lia.
Qed.

(** C9: [getClaimStats] changes nothing and returns, for the table it
    reads, the number of rows of each status, the number of fraudulent
    rows, the number of screened rows, and [fraudCheckPending] equal to
    the total minus the number of screened rows.  Consequently the total is
    the size of the table, the four status counts add up to it, and
    [fraudCheckPending] is the number of rows not yet screened. *)
Theorem getClaimStats_counts w :
  ∃ s, getClaimStats w = (w, inr s) ∧
    st_total s = Z.of_nat (size (store w)) ∧
    st_pending s = rows_where (λ c, ClaimStatus_eqb (status c) PENDING) (store w) ∧
    st_approved s = rows_where (λ c, ClaimStatus_eqb (status c) APPROVED) (store w) ∧
    st_rejected s = rows_where (λ c, ClaimStatus_eqb (status c) REJECTED) (store w) ∧
    st_flagged s = rows_where (λ c, ClaimStatus_eqb (status c) FLAGGED) (store w) ∧
    st_fraudulent s = rows_where isFraudulent (store w) ∧
    st_fraudCheckCompleted s = rows_where fraudCheckCompleted (store w) ∧
    st_fraudCheckPending s = st_total s - st_fraudCheckCompleted s ∧
    st_fraudCheckPending s = rows_where (λ c, negb (fraudCheckCompleted c)) (store w) ∧
    st_pending s + st_approved s + st_rejected s + st_flagged s = st_total s.
Proof.
  eexists. split; [reflexivity|]. cbn.
  assert (Hlen : length (map_to_list (store w)).*2 = size (store w))
    by (by rewrite length_fmap, length_map_to_list).
  assert (Htotal : count (λ _, true) w = Z.of_nat (size (store w))).
  { unfold count. by rewrite filter_true_length, Hlen. }
  pose proof (filter_split_length fraudCheckCompleted (map_to_list (store w)).*2)
    as Hsplit.
  pose proof (filter_status_length (map_to_list (store w)).*2) as Hstatus.
  rewrite Hlen in Hsplit, Hstatus.
  rewrite <- !count_rows_where.
  repeat split; try done; rewrite Htotal; unfold count; lia.
Qed.

(** ** Service status *)

(** C10: [getFraudDetectionStatus] always returns a status and never
    throws.  Without a [getServiceStatus] method on the detector it
    answers healthy with the default message and calls nothing; when the
    method throws, it answers unhealthy with the error's message; when the
    method answers, that answer is returned. *)
Theorem getFraudDetectionStatus_total env w :
  ∃ w' s, getFraudDetectionStatus env w = (w', inr s) ∧ store w' = store w ∧
    (getServiceStatus env = None →
       w' = w ∧
       s = mkServiceStatus true (Some "Service status check not implemented")) ∧
    (∀ f e, getServiceStatus env = Some f → f (length (trace w)) = inl e →
       s = mkServiceStatus false (Some (message e))) ∧
    (∀ f s0, getServiceStatus env = Some f → f (length (trace w)) = inr s0 →
       s = s0).
Proof.
  unfold getFraudDetectionStatus. unfold_M.
  destruct (getServiceStatus env) as [f|] eqn:Hf; cbn.
  - destruct (f (length (trace w))) as [e|s0] eqn:Hcall; cbn;
      eexists _, _; (split; [reflexivity|]); (split; [reflexivity|]);
      (split; [done|]); split; intros ? ? [= <-]; congruence.
  - eexists _, _. split; [reflexivity|]. by repeat split.
Qed.

Lemma getFraudDetectionStatus_total_witness :
  (getServiceStatus env_ok = None ∧
   getFraudDetectionStatus env_ok init_world =
     (init_world,
      inr (mkServiceStatus true (Some "Service status check not implemented")))) ∧
  (∃ w', getFraudDetectionStatus (env_status (inl (Error "timeout"))) init_world =
           (w', inr (mkServiceStatus false (Some "timeout")))).
Proof.
  split.
  - split; [reflexivity|].
    destruct (getFraudDetectionStatus_total env_ok init_world)
      as (w' & s & Hrun & _ & Hnone & _).
    destruct (Hnone eq_refl) as [-> ->]. exact Hrun.
  - destruct (getFraudDetectionStatus_total (env_status (inl (Error "timeout"))) init_world)
      as (w' & s & Hrun & _ & _ & Hthrow & _).
    exists w'. rewrite Hrun.
    by rewrite (Hthrow (λ _, inl (Error "timeout")) (Error "timeout") eq_refl eq_refl).
Defined.

(** ** The lifecycle invariant *)

Lemma verdictStatus_cases verdict :
  (verdict = "approved" ∧ verdictStatus verdict = APPROVED) ∨
  (verdict = "rejected" ∧ verdictStatus verdict = REJECTED) ∨
  (verdict ≠ "approved" ∧ verdict ≠ "rejected" ∧ verdictStatus verdict = PENDING).
Proof.
  unfold verdictStatus.
  destruct (String.eqb_spec verdict "approved") as [->|Ha]; [by left|].
  destruct (String.eqb_spec verdict "rejected") as [->|Hr]; [by right; left|].
  by right; right.
Qed.

Lemma verdictStatus_not_FLAGGED verdict : verdictStatus verdict ≠ FLAGGED.
Proof.
  destruct (verdictStatus_cases verdict) as [[_ ->]|[[_ ->]|(_ & _ & ->)]]; discriminate.
Qed.

Lemma store_ok_insert s k c :
  store_ok s → id c = k → claim_ok c → store_ok (<[k := c]> s).
Proof.
  intros Hs Hid Hc k' c'. rewrite lookup_insert.
  case_decide as Hk; [|by apply Hs].
  intros [= <-]. by subst.
Qed.

Lemma claim_ok_screened r now c :
  claim_ok c → fraudCheckCompleted c = false → claim_ok (applyFraudResult r now c).
Proof.
  intros [Hflag Hfraud] Hc.
  destruct (applyFraudResult_fields r now c)
    as (_ & _ & _ & Hc' & Hf' & _ & _ & Hs').
  assert (status c ≠ FLAGGED) as Hnf.
  { intros Hs. apply Hflag in Hs as [_ Hs]. congruence. }
  split; [|by rewrite Hc'].
  unfold flag_inv. rewrite Hc', Hf', Hs'.
  destruct (fr_isFraudulent r); split; try done. by intros [? _].
Qed.

Lemma claim_ok_failed c :
  claim_ok c → fraudCheckCompleted c = false →
  claim_ok (set_fraudCheckCompleted true c).
Proof.
  intros [Hflag Hfraud] Hc.
  assert (isFraudulent c = false) as Hnf.
  { destruct (isFraudulent c); [|done]. by rewrite Hfraud in Hc. }
  split; [|done]. unfold flag_inv. cbn. rewrite Hnf.
  split; [|by intros [? _]].
  intros Hs. apply Hflag in Hs as [_ Hs]. congruence.
Qed.

Lemma claim_ok_judged verdict now c :
  isFraudulent c = false → claim_ok (judged verdict now c).
Proof.
  intros Hf. split; cbn; [|by rewrite Hf].
  unfold flag_inv. cbn. rewrite Hf. split; [|by intros [? _]].
  intros Hs. by apply verdictStatus_not_FLAGGED in Hs.
Qed.

Lemma runFraudDetection_store_ok env w claimId :
  store_ok (store w) → store_ok (store (runFraudDetection env claimId w).1).
Proof.
  intros Hok.
  destruct (store w !! claimId) as [c|] eqn:Hl;
    [|by rewrite runFraudDetection_missing].
  destruct (Hok _ _ Hl) as [Hid Hc].
  destruct (fraudCheckCompleted c) eqn:Hcompl;
    [by rewrite (runFraudDetection_done env w claimId c)|].
  destruct (detectFraud env (length (trace w)) c) as [e|r] eqn:Hd.
  - rewrite (runFraudDetection_fail env w claimId c e Hl Hcompl Hd). cbn.
    apply store_ok_insert; [done..|]. by apply claim_ok_failed.
  - destruct (runFraudDetection_ok env w claimId c r Hl Hcompl Hd) as [l ->]. cbn.
    apply store_ok_insert; [done|apply id_applyFraudResult|].
    by apply claim_ok_screened.
Qed.

Lemma create_store env dto uid w :
  let c := repository_create dto uid (nextId w) in
  ∃ l, create env dto uid w =
    (mkWorld (<[nextId w := c]> (store w)) (nextId w + 1)
       (trace w ++ EvSave c :: EvFindUser uid ::
          match userService_findOne env (S (length (trace w))) uid with
          | inr (Some u) => [EvNotifySubmitted c u]
          | _ => []
          end)
       (logs w ++ l) (timers w ++ [nextId w]),
     inr (RetDto c)).
Proof.
  unfold create, save_new, runFraudDetectionAsync. unfold_M. cbn.
  rewrite length_app, Nat.add_1_r.
  destruct (userService_findOne env _ uid) as [e|[u|]]; cbn.
  - eexists [_]. by rewrite <- !app_assoc.
  - destruct (sendClaimSubmittedNotification _ _ _ _) as [e|[]]; cbn.
    + eexists [_]. by rewrite <- !app_assoc.
    + exists []. by rewrite <- !app_assoc, app_nil_r.
  - exists []. by rewrite <- !app_assoc, app_nil_r.
Qed.

Lemma runTimer_store env w :
  store (runTimer env w).1 = store w ∨
  ∃ claimId w0, store w0 = store w ∧
    store (runTimer env w).1 = store (runFraudDetection env claimId w0).1.
Proof.
  unfold runTimer. destruct (timers w) as [|claimId rest]; [by left|].
  right. exists claimId, (mkWorld (store w) (nextId w) (trace w) (logs w) rest).
  split; [done|]. unfold try_catch.
  by destruct (runFraudDetection env claimId _) as [w' [e|[]]].
Qed.

(** The store [processClaim] leaves: the one it found, the one its
    screening step wrote, or the latter with the verdict written on a row
    that is not fraudulent. *)
Lemma processClaim_store env w claimId :
  (∀ c, store w !! claimId = Some c → id c = claimId) →
  store (processClaim env claimId w).1 = store w ∨
  store (processClaim env claimId w).1 = store (runFraudDetection env claimId w).1 ∨
  ∃ c verdict now,
    id c = claimId ∧ isFraudulent c = false ∧
    store (processClaim env claimId w).1 = <[claimId := judged verdict now c]> (store w).
Proof.
  intros Hwf.
  destruct (store w !! claimId) as [c|] eqn:Hl;
    [|left; rewrite processClaim_rejects; [done|congruence]].
  pose proof (Hwf c eq_refl) as Hid.
  assert (stored w claimId c) as Hst by done.
  destruct (decide (status c = PENDING)) as [Hs|Hs];
    [|left; rewrite processClaim_rejects; [done|congruence]].
  destruct (fraudCheckCompleted c) eqn:Hcompl.
  - destruct (isFraudulent c) eqn:Hf.
    + destruct (processClaim_prior_fraud env w claimId c Hst Hs Hcompl Hf) as [l ->].
      by left.
    + destruct (verifyClaim env (length (trace w)) claimId (description c))
        as [e|verdict] eqn:Hv.
      * destruct (processClaim_screened_oracle_fails env w claimId c e
                    Hst Hs Hcompl Hf Hv) as [l ->]. by left.
      * destruct (processClaim_screened_verdict env w claimId c verdict
                    Hst Hs Hcompl Hf Hv) as [l ->].
        right; right. by eexists c, verdict, _.
  - destruct (detectFraud env (length (trace w)) c) as [e|r] eqn:Hd.
    + destruct (processClaim_screening_fails env w claimId c e Hst Hs Hcompl Hd)
        as [l ->].
      right; left. rewrite (runFraudDetection_fail env w claimId c e Hl Hcompl Hd).
      cbn. by rewrite Hid.
    + destruct (runFraudDetection_ok env w claimId c r Hl Hcompl Hd) as [l0 Hrun].
      screened_fields env w c r.
      destruct (fr_isFraudulent r) eqn:Hf.
      * destruct (processClaim_flags env w claimId c r Hst Hs Hcompl Hd Hf) as [l ->].
        right; left. rewrite Hrun. cbn. by rewrite Hid.
      * destruct (verifyClaim env (length (trace w) + 2) claimId (description c))
          as [e|verdict] eqn:Hv.
        -- destruct (processClaim_fresh_oracle_fails env w claimId c r e
                       Hst Hs Hcompl Hd Hf Hv) as [l ->].
           right; left. rewrite Hrun. cbn. by rewrite Hid.
        -- destruct (processClaim_fresh_verdict env w claimId c r verdict
                       Hst Hs Hcompl Hd Hf Hv) as [l ->].
           right; right. eexists (screened env w c r), verdict, _.
           split; [congruence|]. by split.
Qed.

Lemma reachable_store_ok env w : reachable env w → store_ok (store w).
Proof.
  induction 1 as [|w dto uid _ IH|w claimId _ IH|w _ IH|w claimId _ IH].
  - intros k c. cbn. by rewrite lookup_empty.
  - destruct (create_store env dto uid w) as [l ->]. cbn.
    apply store_ok_insert; [done..|].
    split; [|done]. unfold flag_inv. cbn. split; [done|by intros [? _]].
  - by apply runFraudDetection_store_ok.
  - destruct (runTimer_store env w) as [->|(claimId & w0 & Hw0 & ->)]; [done|].
    apply runFraudDetection_store_ok. by rewrite Hw0.
  - destruct (processClaim_store env w claimId) as [->|[->|(c & v & now & Hid & Hf & ->)]].
    + intros c Hc. by apply IH in Hc as [? _].
    + done.
    + by apply runFraudDetection_store_ok.
    + apply store_ok_insert; [done..|]. by apply claim_ok_judged.
Qed.

(** C1: in every world reached from the empty system by [create],
    [runFraudDetection] (direct or queued) and [processClaim], every stored
    claim is Flagged exactly when it is fraudulent and screened.  Moreover
    [create] flags nothing: a row Flagged after it was that same row before
    it; and a row Flagged after [processClaim] was that same row before the
    call or is the row its fraud-screening step wrote. *)
Theorem flagged_iff_fraudulent_and_screened env w :
  reachable env w →
  (∀ k c, store w !! k = Some c →
     (status c = FLAGGED ↔ isFraudulent c = true ∧ fraudCheckCompleted c = true)) ∧
  (∀ dto uid k c,
     store (create env dto uid w).1 !! k = Some c → status c = FLAGGED →
     store w !! k = Some c) ∧
  (∀ claimId k c,
     store (processClaim env claimId w).1 !! k = Some c → status c = FLAGGED →
     store w !! k = Some c ∨
     store (runFraudDetection env claimId w).1 !! k = Some c).
Proof.
  intros Hr. pose proof (reachable_store_ok env w Hr) as Hok.
  split; [|split].
  - intros k c Hc. by apply Hok in Hc as [_ [? _]].
  - intros dto uid k c.
    destruct (create_store env dto uid w) as [l ->]. cbn.
    rewrite lookup_insert. case_decide; [|done]. by intros [= <-].
  - intros claimId k c.
    destruct (processClaim_store env w claimId)
      as [->|[->|(c0 & v & now & Hid & Hf & ->)]]; [|by left|by right|].
    { intros c0 Hc0. by apply Hok in Hc0 as [? _]. }
    rewrite lookup_insert. case_decide; [|by left].
    intros [= <-] Hs. by apply verdictStatus_not_FLAGGED in Hs.
Qed.

Lemma flagged_iff_fraudulent_and_screened_witness :
  let w := (runFraudDetection env_fraud 1 (one_claim env_fraud)).1 in
  reachable env_fraud w ∧
  (∃ c, store w !! 1 = Some c ∧ status c = FLAGGED) ∧
  (∀ k c, store w !! k = Some c →
     (status c = FLAGGED ↔ isFraudulent c = true ∧ fraudCheckCompleted c = true)) ∧
  (∀ dto uid k c,
     store (create env_fraud dto uid w).1 !! k = Some c → status c = FLAGGED →
     store w !! k = Some c) ∧
  (∀ claimId k c,
     store (processClaim env_fraud claimId w).1 !! k = Some c → status c = FLAGGED →
     store w !! k = Some c ∨
     store (runFraudDetection env_fraud claimId w).1 !! k = Some c).
Proof.
  intros w.
  assert (Hr : reachable env_fraud w).
  { apply reach_screen. unfold one_claim. apply reach_create, reach_init. }
  split; [exact Hr|]. split.
  - eexists. split; vm_compute; reflexivity.
  - exact (flagged_iff_fraudulent_and_screened env_fraud w Hr).
Defined.

(** ** Fraudulent claims never reach the oracle *)

(** C4, as the code has it: on a Pending claim, (1) when the screening run
    inside [processClaim] reports fraud, the call returns normally without
    calling the oracle, and the stored claim is Flagged, fraudulent and
    carries the verdict data it had before; (2) when the claim was already
    screened and marked fraudulent, the call returns normally without
    calling the oracle and without writing anything: the store is the one
    it found, whatever the status in it. *)
Theorem processClaim_skips_oracle_on_fraud env w claimId c :
  stored w claimId c → status c = PENDING →
  (fraudCheckCompleted c = false →
   ∀ r, detectFraud env (length (trace w)) c = inr r → fr_isFraudulent r = true →
   ∃ w' c',
     processClaim env claimId w = (w', inr RetVoid) ∧
     oracle_calls (trace w') = oracle_calls (trace w) ∧
     store w' !! claimId = Some c' ∧
     status c' = FLAGGED ∧ isFraudulent c' = true ∧ fraudCheckCompleted c' = true ∧
     oracleData c' = oracleData c) ∧
  (fraudCheckCompleted c = true → isFraudulent c = true →
   ∃ w',
     processClaim env claimId w = (w', inr RetVoid) ∧
     oracle_calls (trace w') = oracle_calls (trace w) ∧
     trace w' = trace w ∧ store w' = store w).
Proof.
  intros Hst Hs. split.
  - intros Hc r Hd Hf.
    destruct (processClaim_flags env w claimId c r Hst Hs Hc Hd Hf) as [l ->].
    screened_fields env w c r.
    eexists _, (screened env w c r). split; [reflexivity|]. cbn.
    rewrite oracle_calls_app, lookup_insert_eq, Hstatus', Hfraud', Hf. cbn.
    repeat split; done || lia.
  - intros Hc Hf.
    destruct (processClaim_prior_fraud env w claimId c Hst Hs Hc Hf) as [l ->].
    eexists. by repeat split.
Qed.

Lemma processClaim_skips_oracle_on_fraud_witness :
  stored (one_claim env_fraud) 1 fresh_row ∧ status fresh_row = PENDING ∧
  (∃ w' c',
     processClaim env_fraud 1 (one_claim env_fraud) = (w', inr RetVoid) ∧
     oracle_calls (trace w') = oracle_calls (trace (one_claim env_fraud)) ∧
     store w' !! 1 = Some c' ∧
     status c' = FLAGGED ∧ isFraudulent c' = true ∧ fraudCheckCompleted c' = true ∧
     oracleData c' = oracleData fresh_row) ∧
  (∃ c, stored reset_to_pending 1 c ∧ status c = PENDING ∧
     ∃ w', processClaim env_fraud 1 reset_to_pending = (w', inr RetVoid) ∧
           oracle_calls (trace w') = oracle_calls (trace reset_to_pending) ∧
           trace w' = trace reset_to_pending ∧ store w' = store reset_to_pending).
Proof.
  assert (H1 : stored (one_claim env_fraud) 1 fresh_row)
    by (split; vm_compute; reflexivity).
  split; [exact H1|]. split; [reflexivity|]. split.
  - exact (proj1 (processClaim_skips_oracle_on_fraud env_fraud _ 1 fresh_row H1 eq_refl)
                 eq_refl fraudulent eq_refl eq_refl).
  - exists (set_status PENDING (screened env_fraud (one_claim env_fraud) fresh_row fraudulent)).
    assert (H2 : stored reset_to_pending 1
              (set_status PENDING
                 (screened env_fraud (one_claim env_fraud) fresh_row fraudulent)))
      by (split; vm_compute; reflexivity).
    split; [exact H2|]. split; [reflexivity|].
    exact (proj2 (processClaim_skips_oracle_on_fraud env_fraud _ 1 _ H2 eq_refl)
                 eq_refl eq_refl).
Defined.

(** C4, counterexample to the claim as stated: claim 1 was screened as
    fraudulent and then set back to Pending by an administrator's
    [update].  It is Pending with [isFraudulent] set; [processClaim] runs on
    it, returns normally, and the claim ends the call Pending, not
    Flagged. *)
Lemma processClaim_leaves_reset_claim_pending :
  (∃ c, stored reset_to_pending 1 c ∧ status c = PENDING ∧
        fraudCheckCompleted c = true ∧ isFraudulent c = true) ∧
  ∃ w' c', processClaim env_fraud 1 reset_to_pending = (w', inr RetVoid) ∧
           store w' !! 1 = Some c' ∧ status c' = PENDING ∧ status c' ≠ FLAGGED.
Proof.
  split.
  - eexists. repeat split; vm_compute; reflexivity.
  - eexists _, _. split; [vm_compute; reflexivity|].
    split; [vm_compute; reflexivity|]. split; [reflexivity|discriminate].
Qed.

(** ** The verdict step *)

Lemma oracle_calls_notice env c c' verdict :
  oracle_calls (processing_notice env c c' verdict) = 0%nat.
Proof. unfold processing_notice. by destruct (user_relation env _). Qed.

Lemma judged_fields verdict now c :
  let c' := judged verdict now c in
  oracleData c' = Some (mkOracleData now verdict) ∧
  (verdict = "approved" → status c' = APPROVED) ∧
  (verdict = "rejected" → status c' = REJECTED) ∧
  (verdict ≠ "approved" → verdict ≠ "rejected" → status c' = PENDING) ∧
  isFraudulent c' = isFraudulent c ∧
  fraudCheckCompleted c' = fraudCheckCompleted c ∧
  description c' = description c ∧ userId c' = userId c.
Proof.
  cbn.
  destruct (verdictStatus_cases verdict) as [[-> ->]|[[-> ->]|(Ha & Hr & ->)]];
    by repeat split.
Qed.

(** C5: on a Pending claim that is not fraudulent once the screening step
    is over (it was screened before, or the screening run inside this call
    clears it), when the oracle answers [verdict] the call returns
    normally and the stored claim has been saved with status Approved for
    "approved", Rejected for "rejected" and Pending for any other string,
    and with verdict data holding that very string and the time read from
    the clock.  The oracle is asked after the effects already in the
    trace: two more than at the start when the screening ran in this call
    (its detector call and its save). *)
Theorem processClaim_verdict_mapping env w claimId c verdict :
  stored w claimId c → status c = PENDING →
  (fraudCheckCompleted c = true ∧ isFraudulent c = false ∧
   verifyClaim env (length (trace w)) claimId (description c) = inr verdict) ∨
  (fraudCheckCompleted c = false ∧
   ∃ r, detectFraud env (length (trace w)) c = inr r ∧ fr_isFraudulent r = false ∧
        verifyClaim env (length (trace w) + 2) claimId (description c) = inr verdict) →
  ∃ w' c' n,
    processClaim env claimId w = (w', inr RetVoid) ∧
    store w' !! claimId = Some c' ∧
    EvSave c' ∈ trace w' ∧
    oracle_calls (trace w') = S (oracle_calls (trace w)) ∧
    oracleData c' = Some (mkOracleData (clock env n) verdict) ∧
    (verdict = "approved" → status c' = APPROVED) ∧
    (verdict = "rejected" → status c' = REJECTED) ∧
    (verdict ≠ "approved" → verdict ≠ "rejected" → status c' = PENDING) ∧
    isFraudulent c' = false ∧ fraudCheckCompleted c' = true ∧
    description c' = description c ∧ userId c' = userId c.
Proof.
  intros Hst Hs Hcase.
  destruct Hcase as [(Hc & Hf & Ho)|(Hc & r & Hd & Hf & Ho)].
  - destruct (processClaim_screened_verdict env w claimId c verdict
                Hst Hs Hc Hf Ho) as [l ->].
    destruct (judged_fields verdict (clock env (S (length (trace w)))) c)
      as (Hod & Ha & Hr & Hp & Hfr & Hco & Hde & Hui).
    eexists _, _, _. split; [reflexivity|]. cbn [store trace].
    rewrite lookup_insert_eq, !oracle_calls_app, oracle_calls_notice.
    cbn [oracle_calls].
    split; [reflexivity|]. split; [|split; [lia|]].
    { rewrite !elem_of_app, !elem_of_cons. by eauto. }
    split; [exact Hod|]. by rewrite Hfr, Hco.
  - destruct (processClaim_fresh_verdict env w claimId c r verdict
                Hst Hs Hc Hd Hf Ho) as [l ->].
    screened_fields env w c r.
    destruct (judged_fields verdict (clock env (length (trace w) + 3))
                (screened env w c r))
      as (Hod & Ha & Hr & Hp & Hfr & Hco & Hde & Hui).
    eexists _, _, _. split; [reflexivity|]. cbn [store trace].
    rewrite lookup_insert_eq, !oracle_calls_app, oracle_calls_notice.
    cbn [oracle_calls].
    split; [reflexivity|]. split; [|split; [lia|]].
    { rewrite !elem_of_app, !elem_of_cons. by eauto 10. }
    split; [exact Hod|]. rewrite Hfr, Hco, Hde, Hui.
    split; [exact Ha|]. split; [exact Hr|]. split; [exact Hp|].
    repeat split; congruence.
Qed.

Lemma processClaim_verdict_mapping_witness :
  (stored (cleared_claim env_ok) 1 (screened env_ok (one_claim env_ok) fresh_row legitimate) ∧
   ∃ w' c' n,
     processClaim env_ok 1 (cleared_claim env_ok) = (w', inr RetVoid) ∧
     store w' !! 1 = Some c' ∧ EvSave c' ∈ trace w' ∧
     oracle_calls (trace w') = S (oracle_calls (trace (cleared_claim env_ok))) ∧
     oracleData c' = Some (mkOracleData (clock env_ok n) "approved") ∧
     ("approved" = "approved" → status c' = APPROVED) ∧
     ("approved" = "rejected" → status c' = REJECTED) ∧
     ("approved" ≠ "approved" → "approved" ≠ "rejected" → status c' = PENDING) ∧
     isFraudulent c' = false ∧ fraudCheckCompleted c' = true ∧
     description c' = "water damage" ∧ userId c' = "u1") ∧
  (stored (one_claim env_maybe) 1 fresh_row ∧
   ∃ w' c' n,
     processClaim env_maybe 1 (one_claim env_maybe) = (w', inr RetVoid) ∧
     store w' !! 1 = Some c' ∧ EvSave c' ∈ trace w' ∧
     oracle_calls (trace w') = S (oracle_calls (trace (one_claim env_maybe))) ∧
     oracleData c' = Some (mkOracleData (clock env_maybe n) "maybe") ∧
     ("maybe" = "approved" → status c' = APPROVED) ∧
     ("maybe" = "rejected" → status c' = REJECTED) ∧
     ("maybe" ≠ "approved" → "maybe" ≠ "rejected" → status c' = PENDING) ∧
     isFraudulent c' = false ∧ fraudCheckCompleted c' = true ∧
     description c' = "water damage" ∧ userId c' = "u1").
Proof.
  assert (H1 : stored (cleared_claim env_ok) 1
                 (screened env_ok (one_claim env_ok) fresh_row legitimate))
    by (split; vm_compute; reflexivity).
  assert (H2 : stored (one_claim env_maybe) 1 fresh_row)
    by (split; vm_compute; reflexivity).
  split; (split; [eassumption|]).
  - exact (processClaim_verdict_mapping env_ok _ 1 _ "approved" H1 eq_refl
             (or_introl (conj eq_refl (conj eq_refl eq_refl)))).
  - exact (processClaim_verdict_mapping env_maybe _ 1 fresh_row "maybe" H2 eq_refl
             (or_intror (conj eq_refl
                (ex_intro _ legitimate (conj eq_refl (conj eq_refl eq_refl)))))).
Defined.

(** C6, as the code has it: when the oracle throws on a Pending claim that
    is not fraudulent, [processClaim] throws the same error and writes no
    verdict: (1) if the claim had been screened before, the store and the
    writes in the trace are those it found; (2) if the screening ran
    inside this call, the store is the one that screening left, so the
    claim now carries the screening's columns, its status is still
    Pending, and its verdict data, description and owner are as before. *)
Theorem processClaim_oracle_failure env w claimId c e :
  stored w claimId c → status c = PENDING →
  (fraudCheckCompleted c = true → isFraudulent c = false →
   verifyClaim env (length (trace w)) claimId (description c) = inl e →
   ∃ w',
     processClaim env claimId w = (w', inl e) ∧
     store w' = store w ∧
     saves_of claimId (trace w') = saves_of claimId (trace w)) ∧
  (fraudCheckCompleted c = false →
   ∀ r, detectFraud env (length (trace w)) c = inr r → fr_isFraudulent r = false →
   verifyClaim env (length (trace w) + 2) claimId (description c) = inl e →
   ∃ w' c',
     processClaim env claimId w = (w', inl e) ∧
     store w' = store (runFraudDetection env claimId w).1 ∧
     store w' !! claimId = Some c' ∧
     c' = screened env w c r ∧
     status c' = PENDING ∧ oracleData c' = oracleData c ∧
     description c' = description c ∧ userId c' = userId c ∧
     fraudCheckCompleted c' = true ∧
     saves_of claimId (trace w') = S (saves_of claimId (trace w))).
Proof.
  intros Hst Hs. split.
  - intros Hc Hf Ho.
    destruct (processClaim_screened_oracle_fails env w claimId c e Hst Hs Hc Hf Ho)
      as [l ->].
    eexists. split; [reflexivity|]. cbn. split; [done|].
    rewrite saves_of_app. cbn. lia.
  - intros Hc r Hd Hf Ho.
    destruct (processClaim_fresh_oracle_fails env w claimId c r e
                Hst Hs Hc Hd Hf Ho) as [l ->].
    destruct Hst as [Hl Hid].
    destruct (runFraudDetection_ok env w claimId c r Hl Hc Hd) as [l0 ->].
    screened_fields env w c r.
    eexists _, _. split; [reflexivity|]. cbn.
    rewrite Hid, lookup_insert_eq, Hstatus', Hf, saves_of_app. cbn.
    rewrite Hid', Hid, Z.eqb_refl.
    repeat split; done || lia.
Qed.

Lemma processClaim_oracle_failure_witness :
  (stored (cleared_claim env_oracle_down) 1
     (screened env_oracle_down (one_claim env_oracle_down) fresh_row legitimate) ∧
   ∃ w',
     processClaim env_oracle_down 1 (cleared_claim env_oracle_down)
       = (w', inl (Error "oracle unavailable")) ∧
     store w' = store (cleared_claim env_oracle_down) ∧
     saves_of 1 (trace w') = saves_of 1 (trace (cleared_claim env_oracle_down))) ∧
  (stored (one_claim env_oracle_down) 1 fresh_row ∧
   ∃ w' c',
     processClaim env_oracle_down 1 (one_claim env_oracle_down)
       = (w', inl (Error "oracle unavailable")) ∧
     store w' = store (runFraudDetection env_oracle_down 1 (one_claim env_oracle_down)).1 ∧
     store w' !! 1 = Some c' ∧
     c' = screened env_oracle_down (one_claim env_oracle_down) fresh_row legitimate ∧
     status c' = PENDING ∧ oracleData c' = oracleData fresh_row ∧
     description c' = description fresh_row ∧ userId c' = userId fresh_row ∧
     fraudCheckCompleted c' = true ∧
     saves_of 1 (trace w') = S (saves_of 1 (trace (one_claim env_oracle_down)))).
Proof.
  assert (H1 : stored (cleared_claim env_oracle_down) 1
                 (screened env_oracle_down (one_claim env_oracle_down) fresh_row legitimate))
    by (split; vm_compute; reflexivity).
  assert (H2 : stored (one_claim env_oracle_down) 1 fresh_row)
    by (split; vm_compute; reflexivity).
  split; (split; [eassumption|]).
  - exact (proj1 (processClaim_oracle_failure env_oracle_down _ 1 _
                    (Error "oracle unavailable") H1 eq_refl)
                 eq_refl eq_refl eq_refl).
  - exact (proj2 (processClaim_oracle_failure env_oracle_down _ 1 fresh_row
                    (Error "oracle unavailable") H2 eq_refl)
                 eq_refl legitimate eq_refl eq_refl eq_refl).
Defined.

(** C6, counterexample to the claim as stated: claim 1 is Pending and not
    yet screened; the detector clears it and the oracle throws.
    [processClaim] throws the oracle's error, and the stored claim is not
    the one from before the call: its [fraudCheckCompleted] went from false
    to true and it now carries fraud detection data. *)
Lemma processClaim_oracle_failure_keeps_screening :
  ∃ c w' c',
    stored (one_claim env_oracle_down) 1 c ∧ status c = PENDING ∧
    processClaim env_oracle_down 1 (one_claim env_oracle_down)
      = (w', inl (Error "oracle unavailable")) ∧
    store w' !! 1 = Some c' ∧
    fraudCheckCompleted c = false ∧ fraudCheckCompleted c' = true ∧
    fraudDetectionData c = None ∧ is_Some (fraudDetectionData c') ∧
    c' ≠ c ∧ store w' ≠ store (one_claim env_oracle_down).
Proof.
  eexists _, _, _.
  split; [split; vm_compute; reflexivity|].
  split; [reflexivity|].
  split; [vm_compute; reflexivity|].
  split; [vm_compute; reflexivity|].
  split; [reflexivity|]. split; [reflexivity|]. split; [reflexivity|].
  split; [vm_compute; eauto|].
  split; [discriminate|].
  intros Heq. apply (f_equal (λ s, fraudCheckCompleted <$> s !! 1)) in Heq.
  vm_compute in Heq. discriminate.
Qed.

(** ** Notifications are best effort *)

Lemma runFraudDetection_quiet env claimId w :
  runFraudDetection (quiet_notifier env) claimId w = runFraudDetection env claimId w.
Proof. reflexivity. Qed.

Lemma processClaim_quiet env claimId w :
  same_outcome (processClaim env claimId w) (processClaim (quiet_notifier env) claimId w).
Proof.
  unfold same_outcome, processClaim. unfold_M.
  change (runFraudDetection (quiet_notifier env)) with (runFraudDetection env).
  cbn.
  repeat case_match; simplify_eq/=; try done.
Qed.

Lemma processClaim_returns_nothing env claimId w :
  (processClaim env claimId w).2 = inr RetVoid ∨
  ∃ e, (processClaim env claimId w).2 = inl e.
Proof.
  unfold processClaim. unfold_M. cbn.
  repeat case_match; simplify_eq/=; eauto.
Qed.

Lemma create_quiet env dto uid w :
  same_outcome (create env dto uid w) (create (quiet_notifier env) dto uid w).
Proof.
  destruct (create_store env dto uid w) as [l ->].
  destruct (create_store (quiet_notifier env) dto uid w) as [l' ->].
  by repeat split.
Qed.

Lemma update_quiet env claimId dto uid isAdmin w :
  (∀ c, store w !! claimId = Some c → is_Some (user_relation env (userId c))) →
  same_outcome (update env claimId dto uid isAdmin w)
               (update (quiet_notifier env) claimId dto uid isAdmin w).
Proof.
  intros Huser. unfold same_outcome, update. unfold_M. cbn.
  destruct (store w !! claimId) as [c|] eqn:Hl; cbn; [|done].
  destruct (Huser c eq_refl) as [u ->].
  repeat case_match; simplify_eq/=; done.
Qed.

(** C8, as the code has it: a notifier that throws changes neither what is
    persisted, nor which collaborators are called, nor what the caller
    gets back, compared with a notifier that succeeds; only the log
    differs.  This holds for [create], which always returns the saved
    claim; for [processClaim], which on success returns no value at all
    (the updated claim is in the store, not in the return value); and for
    [update] on a claim whose user relation is loaded. *)
Theorem notifier_failure_is_contained env w :
  (∀ dto uid,
     same_outcome (create env dto uid w) (create (quiet_notifier env) dto uid w) ∧
     ∃ c, (create env dto uid w).2 = inr (RetDto c) ∧
          store (create env dto uid w).1 !! id c = Some c) ∧
  (∀ claimId,
     same_outcome (processClaim env claimId w)
                  (processClaim (quiet_notifier env) claimId w) ∧
     ((processClaim env claimId w).2 = inr RetVoid ∨
      ∃ e, (processClaim env claimId w).2 = inl e)) ∧
  (∀ claimId dto uid isAdmin,
     (∀ c, store w !! claimId = Some c → is_Some (user_relation env (userId c))) →
     same_outcome (update env claimId dto uid isAdmin w)
                  (update (quiet_notifier env) claimId dto uid isAdmin w)).
Proof.
  split; [|split].
  - intros dto uid. split; [apply create_quiet|].
    destruct (create_store env dto uid w) as [l ->].
    eexists. split; [reflexivity|]. cbn. apply lookup_insert_eq.
  - intros claimId. split; [apply processClaim_quiet|apply processClaim_returns_nothing].
  - intros claimId dto uid isAdmin. apply update_quiet.
Qed.

Lemma notifier_failure_is_contained_witness :
  (∀ c, store (cleared_claim env_notifier_down) !! 1 = Some c →
        is_Some (user_relation env_notifier_down (userId c))) ∧
  same_outcome
    (update env_notifier_down 1 (mkUpdateClaimDto (Some REJECTED) None) None true
            (cleared_claim env_notifier_down))
    (update (quiet_notifier env_notifier_down) 1 (mkUpdateClaimDto (Some REJECTED) None)
            None true (cleared_claim env_notifier_down)) ∧
  same_outcome
    (processClaim env_notifier_down 1 (cleared_claim env_notifier_down))
    (processClaim (quiet_notifier env_notifier_down) 1 (cleared_claim env_notifier_down)).
Proof.
  assert (H : ∀ c, store (cleared_claim env_notifier_down) !! 1 = Some c →
                   is_Some (user_relation env_notifier_down (userId c))).
  { intros c Hc. vm_compute in Hc. injection Hc as <-. vm_compute. eauto. }
  split; [exact H|]. split.
  - exact (proj2 (proj2 (notifier_failure_is_contained env_notifier_down
                           (cleared_claim env_notifier_down)))
                 1 (mkUpdateClaimDto (Some REJECTED) None) None true H).
  - exact (proj1 (proj1 (proj2 (notifier_failure_is_contained env_notifier_down
                                  (cleared_claim env_notifier_down))) 1)).
Defined.

(** C8, counterexample to the claim as stated: the notifier throws while
    [processClaim] handles claim 1; the call succeeds and the approved claim
    is in the store, but what the caller gets back is no value: it is not
    that claim, nor any claim. *)
Lemma processClaim_returns_no_claim :
  ∃ w' c',
    processClaim env_notifier_down 1 (cleared_claim env_notifier_down)
      = (w', inr RetVoid) ∧
    EvNotifyProcessing c' (mkUser "u1" "u1@example.org") "approved" ∈ trace w' ∧
    store w' !! 1 = Some c' ∧ status c' = APPROVED ∧
    ∀ c, (processClaim env_notifier_down 1 (cleared_claim env_notifier_down)).2
         ≠ inr (RetDto c).
Proof.
  eexists _, _. split; [vm_compute; reflexivity|].
  split; [|split; [vm_compute; reflexivity|split; [reflexivity|]]].
  - cbn [trace]. do 7 apply list_elem_of_further. apply list_elem_of_here.
  - intros c. vm_compute. discriminate.
Qed.

(** The [catch] block of [update] is not as tight as the other two: on a
    claim whose owner is not in the user table, a notifier failure makes
    the handler itself throw, after the new status has been saved. *)
Lemma update_handler_throws_without_user :
  ∃ w' c',
    update env_notifier_down 1 (mkUpdateClaimDto (Some APPROVED) None) None true
           (orphan_claim env_notifier_down)
      = (w', inl (TypeError "Cannot read properties of undefined (reading 'id')")) ∧
    store w' !! 1 = Some c' ∧ status c' = APPROVED.
Proof.
  eexists _, _. split; [vm_compute; reflexivity|].
  split; [vm_compute; reflexivity|reflexivity].
Qed.


(** ** The lifecycle end to end *)

(** A claim for "water damage" by owner "u1" is created Pending and
    unscreened; the queued screening clears it and leaves it Pending;
    [processClaim] then gets "approved" from the oracle and the claim ends
    Approved, after one detector call and one oracle call. *)
Example water_damage_is_approved :
  let w1 := (create env_ok water_damage "u1" init_world).1 in
  let w2 := (runTimer env_ok w1).1 in
  let w3 := (processClaim env_ok 1 w2).1 in
  (status <$> store w1 !! 1, fraudCheckCompleted <$> store w1 !! 1)
    = (Some PENDING, Some false) ∧
  timers w1 = [1] ∧
  (status <$> store w2 !! 1, fraudCheckCompleted <$> store w2 !! 1,
   isFraudulent <$> store w2 !! 1) = (Some PENDING, Some true, Some false) ∧
  status <$> store w3 !! 1 = Some APPROVED ∧
  (od_verdict <$> (store w3 !! 1 ≫= oracleData)) = Some "approved" ∧
  screener_calls (trace w3) = 1%nat ∧ oracle_calls (trace w3) = 1%nat.
Proof. vm_compute. repeat split. Qed.

(** ** Further properties: the writes of the lifecycle *)

Lemma row_step_frame c c' :
  row_step c c' →
  id c' = id c ∧ userId c' = userId c ∧ description c' = description c.
Proof.
  destruct 1 as [r now c _|c _|v now c _ _ _]; [|done..].
  by destruct (applyFraudResult_fields r now c) as (? & ? & ? & _).
Qed.

Lemma row_inv_fresh dto uid k : row_inv (repository_create dto uid k).
Proof.
  unfold row_inv, claim_ok, flag_inv. cbn. split_and!; try done.
  - split; [done|by intros [? _]].
  - by intros [?|?].
  - intros [[? ?]|[? ?]]; done.
Qed.

Lemma row_inv_step c c' : row_inv c → row_step c c' → row_inv c'.
Proof.
  intros (Hok & Hterm & Hod & Hverdict & Hev & Hdata) Hstep.
  destruct Hstep as [r now c Hc|c Hc|v now c Hs Hc Hf].
  - (* screened *)
    assert (status c = PENDING) as Hs.
    { destruct (decide (status c = PENDING)) as [|Hn]; [done|].
      apply Hterm in Hn. congruence. }
    assert (oracleData c = None) as Hnone.
    { destruct (oracleData c) as [d|] eqn:Hd; [|done].
      destruct (Hod d eq_refl) as [? _]. congruence. }
    destruct (applyFraudResult_fields r now c)
      as (_ & _ & _ & Hc' & Hf' & Ho' & Hd' & Hs').
    assert (is_Some (fraudConfidenceScore (applyFraudResult r now c))) as Hscore.
    { unfold applyFraudResult. destruct (fr_isFraudulent r); cbn; eauto. }
    split; [by apply claim_ok_screened|].
    rewrite Hc', Hf', Ho', Hd', Hs', Hnone, Hs.
    split_and!; try done.
    destruct (fr_isFraudulent r); intros [?|?]; congruence.
  - (* failed screening *)
    assert (status c = PENDING) as Hs.
    { destruct (decide (status c = PENDING)) as [|Hn]; [done|].
      apply Hterm in Hn. congruence. }
    assert (oracleData c = None) as Hnone.
    { destruct (oracleData c) as [d|] eqn:Hd; [|done].
      destruct (Hod d eq_refl) as [? _]. congruence. }
    split; [by apply claim_ok_failed|]. cbn. rewrite Hnone, Hs.
    split_and!; try done.
    intros [?|?]; congruence.
  - (* verdict *)
    split; [by apply claim_ok_judged|]. cbn. rewrite Hc, Hf.
    split_and!; try done.
    by intros d [= <-].
Qed.


(** The world [runFraudDetection] leaves, for a table whose row [claimId]
    carries its own id. *)
Lemma runFraudDetection_world env w claimId :
  (∀ c, store w !! claimId = Some c → id c = claimId) →
  ∃ s' tr l res,
    runFraudDetection env claimId w =
      (mkWorld s' (nextId w) (trace w ++ tr) (logs w ++ l) (timers w), res) ∧
    store_steps claimId (store w) s'.
Proof.
  intros Hwf.
  destruct (store w !! claimId) as [c|] eqn:Hl.
  - pose proof (Hwf c eq_refl) as Hid.
    destruct (fraudCheckCompleted c) eqn:Hc.
    + rewrite (runFraudDetection_done env w claimId c Hl Hc).
      eexists _, [], _, _. rewrite app_nil_r. split; [reflexivity|by left].
    + destruct (detectFraud env (length (trace w)) c) as [e|r] eqn:Hd.
      * rewrite (runFraudDetection_fail env w claimId c e Hl Hc Hd), Hid.
        eexists _, _, _, _. split; [reflexivity|].
        right. eexists c, _. split; [done|]. split; [by apply step_failed|by left].
      * destruct (runFraudDetection_ok env w claimId c r Hl Hc Hd) as [l ->].
        rewrite Hid. eexists _, _, _, _. split; [reflexivity|].
        right. eexists c, _. split; [done|].
        split; [by apply step_screened|by left].
  - rewrite (runFraudDetection_missing env w claimId Hl).
    destruct w as [s n tr l t]; cbn.
    eexists _, [], [], _. rewrite !app_nil_r. split; [reflexivity|by left].
Qed.

(** The world [processClaim] leaves, under the same condition. *)
Lemma processClaim_world env w claimId :
  (∀ c, store w !! claimId = Some c → id c = claimId) →
  ∃ s' tr l res,
    processClaim env claimId w =
      (mkWorld s' (nextId w) (trace w ++ tr) (logs w ++ l) (timers w), res) ∧
    store_steps claimId (store w) s'.
Proof.
  intros Hwf.
  assert (Hrej : (∀ c, store w !! claimId = Some c → status c ≠ PENDING) →
    ∃ s' tr l res,
      processClaim env claimId w =
        (mkWorld s' (nextId w) (trace w ++ tr) (logs w ++ l) (timers w), res) ∧
      store_steps claimId (store w) s').
  { intros H. rewrite (processClaim_rejects env w claimId H).
    destruct w as [s n tr l t]; cbn.
    eexists _, [], [], _. rewrite !app_nil_r. split; [reflexivity|by left]. }
  destruct (store w !! claimId) as [c|] eqn:Hl; [|apply Hrej; congruence].
  pose proof (Hwf c eq_refl) as Hid.
  assert (stored w claimId c) as Hst by done.
  destruct (decide (status c = PENDING)) as [Hs|Hs]; [|apply Hrej; congruence].
  clear Hrej.
  destruct (fraudCheckCompleted c) eqn:Hcompl.
  - destruct (isFraudulent c) eqn:Hf.
    + destruct (processClaim_prior_fraud env w claimId c Hst Hs Hcompl Hf) as [l ->].
      eexists _, [], _, _. rewrite app_nil_r. split; [reflexivity|by left].
    + destruct (verifyClaim env (length (trace w)) claimId (description c))
        as [e|verdict] eqn:Hv.
      * destruct (processClaim_screened_oracle_fails env w claimId c e
                    Hst Hs Hcompl Hf Hv) as [l ->].
        eexists _, _, _, _. split; [reflexivity|by left].
      * destruct (processClaim_screened_verdict env w claimId c verdict
                    Hst Hs Hcompl Hf Hv) as [l ->].
        eexists _, _, _, _. split; [reflexivity|].
        right. eexists c, _. split; [done|].
        split; [by apply step_judged|by left].
  - destruct (detectFraud env (length (trace w)) c) as [e|r] eqn:Hd.
    + destruct (processClaim_screening_fails env w claimId c e Hst Hs Hcompl Hd)
        as [l ->].
      eexists _, _, _, _. split; [reflexivity|].
      right. eexists c, _. split; [done|]. split; [by apply step_failed|by left].
    + screened_fields env w c r.
      assert (row_step c (screened env w c r)) as Hstep by by apply step_screened.
      destruct (fr_isFraudulent r) eqn:Hf.
      * destruct (processClaim_flags env w claimId c r Hst Hs Hcompl Hd Hf) as [l ->].
        eexists _, _, _, _. split; [reflexivity|].
        right. eexists c, _. split; [done|]. split; [done|by left].
      * destruct (verifyClaim env (length (trace w) + 2) claimId (description c))
          as [e|verdict] eqn:Hv.
        -- destruct (processClaim_fresh_oracle_fails env w claimId c r e
                       Hst Hs Hcompl Hd Hf Hv) as [l ->].
           eexists _, _, _, _. split; [reflexivity|].
           right. eexists c, _. split; [done|]. split; [done|by left].
        -- destruct (processClaim_fresh_verdict env w claimId c r verdict
                       Hst Hs Hcompl Hd Hf Hv) as [l ->].
           eexists _, _, _, _. split; [reflexivity|].
           right. eexists c, _. split; [done|]. split; [done|].
           right. eexists. split; [|reflexivity].
           apply step_judged; congruence.
Qed.

Lemma runTimer_world env w :
  (∀ k c, store w !! k = Some c → id c = k) →
  ∃ k s' tr l,
    runTimer env w =
      (mkWorld s' (nextId w) (trace w ++ tr) (logs w ++ l) (tail (timers w)), inr tt) ∧
    store_steps k (store w) s'.
Proof.
  intros Hwf. unfold runTimer.
  destruct (timers w) as [|claimId rest] eqn:Ht.
  - destruct w as [s n tr l t]; cbn in *. subst t.
    exists 0, s, [], []. rewrite !app_nil_r. split; [done|by left].
  - destruct (runFraudDetection_world env
                (mkWorld (store w) (nextId w) (trace w) (logs w) rest) claimId)
      as (s' & tr & l & res & Hrun & Hsteps); [by apply Hwf|].
    unfold try_catch. rewrite Hrun. cbn.
    exists claimId, s', tr, l. split; [|done]. by destruct res as [e|[]].
Qed.

Lemma world_inv_steps w k s' :
  world_inv w → store_steps k (store w) s' →
  ∀ k' c', s' !! k' = Some c' → id c' = k' ∧ k' < nextId w ∧ row_inv c'.
Proof.
  intros Hinv [->|(c & c1 & Hl & Hs1 & Hrest)] k' c'; [by apply Hinv|].
  destruct (Hinv k c Hl) as (Hid & Hlt & Hrow).
  destruct (row_step_frame c c1 Hs1) as (Hid1 & _).
  pose proof (row_inv_step c c1 Hrow Hs1) as Hrow1.
  destruct Hrest as [->|(c2 & Hs2 & ->)];
    rewrite lookup_insert; case_decide; try by apply Hinv.
  - intros [= <-]. subst. split; [congruence|done].
  - intros [= <-]. subst.
    destruct (row_step_frame c1 c2 Hs2) as (Hid2 & _).
    split; [congruence|]. split; [done|]. by apply (row_inv_step c1).
Qed.

Lemma world_inv_ids w : world_inv w → ∀ k c, store w !! k = Some c → id c = k.
Proof. intros Hinv k c Hc. by apply Hinv in Hc as [? _]. Qed.

Lemma lifecycle_step_inv env w w' :
  world_inv w → lifecycle_step env w w' → world_inv w'.
Proof.
  intros Hinv [dto uid|claimId| |claimId].
  - destruct (create_store env dto uid w) as [l ->]. unfold world_inv. cbn.
    intros k c. rewrite lookup_insert. case_decide as Hk.
    + intros [= <-]. subst k. split; [done|]. split; [lia|apply row_inv_fresh].
    + intros Hc. apply Hinv in Hc as (? & ? & ?). split; [done|]. split; [lia|done].
  - destruct (runFraudDetection_world env w claimId)
      as (s' & tr & l & res & -> & Hsteps); [by eapply world_inv_ids|].
    intros k0 c0; cbn. by apply (world_inv_steps w claimId).
  - destruct (runTimer_world env w) as (k & s' & tr & l & -> & Hsteps);
      [by apply world_inv_ids|].
    intros k0 c0; cbn. by apply (world_inv_steps w k).
  - destruct (processClaim_world env w claimId)
      as (s' & tr & l & res & -> & Hsteps); [by eapply world_inv_ids|].
    intros k0 c0; cbn. by apply (world_inv_steps w claimId).
Qed.

Lemma reachable_world_inv env w : reachable env w → world_inv w.
Proof.
  induction 1 as [|w dto uid _ IH|w claimId _ IH|w _ IH|w claimId _ IH].
  - intros k c. cbn. by rewrite lookup_empty.
  - by apply (lifecycle_step_inv env w), ls_create.
  - by apply (lifecycle_step_inv env w), ls_screen.
  - by apply (lifecycle_step_inv env w), ls_timer.
  - by apply (lifecycle_step_inv env w), ls_process.
Qed.


Lemma world_inv_next_free w : world_inv w → store w !! nextId w = None.
Proof.
  intros Hinv. destruct (store w !! nextId w) as [c|] eqn:Hc; [|done].
  apply Hinv in Hc as (_ & ? & _). lia.
Qed.

(** ** Further properties: what the lifecycle keeps *)

(** X1: in a reachable world the id the store will hand out next is free,
    so [create] adds exactly one row: every claim stored before is still
    there, unchanged, and the table has grown by one. *)
Theorem create_never_overwrites env w dto uid :
  reachable env w →
  store w !! nextId w = None ∧
  (∀ k c, store w !! k = Some c → store (create env dto uid w).1 !! k = Some c) ∧
  size (store (create env dto uid w).1) = S (size (store w)) ∧
  nextId (create env dto uid w).1 = nextId w + 1.
Proof.
  intros Hr. pose proof (reachable_world_inv env w Hr) as Hinv.
  pose proof (world_inv_next_free w Hinv) as Hfree.
  destruct (create_store env dto uid w) as [l ->]. cbn.
  split; [done|]. split; [|split; [by apply map_size_insert_None|done]].
  intros k c Hc. rewrite lookup_insert_ne; [done|]. intros <-. congruence.
Qed.

Lemma create_never_overwrites_witness :
  reachable env_ok (one_claim env_ok) ∧
  store (one_claim env_ok) !! nextId (one_claim env_ok) = None ∧
  (∀ k c, store (one_claim env_ok) !! k = Some c →
     store (create env_ok water_damage "u2" (one_claim env_ok)).1 !! k = Some c) ∧
  size (store (create env_ok water_damage "u2" (one_claim env_ok)).1)
    = S (size (store (one_claim env_ok))) ∧
  nextId (create env_ok water_damage "u2" (one_claim env_ok)).1
    = nextId (one_claim env_ok) + 1.
Proof.
  assert (Hr : reachable env_ok (one_claim env_ok))
    by (unfold one_claim; apply reach_create, reach_init).
  split; [exact Hr|].
  exact (create_never_overwrites env_ok (one_claim env_ok) water_damage "u2" Hr).
Defined.





Lemma verdictStatus_inv verdict :
  (verdictStatus verdict = APPROVED → verdict = "approved") ∧
  (verdictStatus verdict = REJECTED → verdict = "rejected").
Proof.
  destruct (verdictStatus_cases verdict) as [[-> ->]|[[-> ->]|(_ & _ & ->)]];
    by split.
Qed.

(** X4: in a reachable world no claim has left Pending without having
    been through screening, and a claim that carries verdict data has
    been screened, is not fraudulent, and has the status that the recorded
    verdict string maps to. *)
Theorem verdict_only_after_screening env w k c :
  reachable env w → store w !! k = Some c →
  (status c ≠ PENDING → fraudCheckCompleted c = true) ∧
  (∀ d, oracleData c = Some d →
     fraudCheckCompleted c = true ∧ isFraudulent c = false ∧
     status c = verdictStatus (od_verdict d)).
Proof.
  intros Hr Hc.
  by destruct (reachable_world_inv env w Hr k c Hc) as (_ & _ & _ & ? & ? & _).
Qed.

Lemma verdict_only_after_screening_witness :
  let w := (processClaim env_maybe 1 (one_claim env_maybe)).1 in
  reachable env_maybe w ∧
  ∃ c, store w !! 1 = Some c ∧
    (od_verdict <$> oracleData c) = Some "maybe" ∧
    (status c ≠ PENDING → fraudCheckCompleted c = true) ∧
    (∀ d, oracleData c = Some d →
       fraudCheckCompleted c = true ∧ isFraudulent c = false ∧
       status c = verdictStatus (od_verdict d)).
Proof.
  intros w.
  assert (Hr : reachable env_maybe w).
  { apply reach_process. unfold one_claim. apply reach_create, reach_init. }
  split; [exact Hr|].
  assert (Hc : ∃ c, store w !! 1 = Some c ∧ (od_verdict <$> oracleData c) = Some "maybe").
  { eexists. split; vm_compute; reflexivity. }
  destruct Hc as (c & Hc & Hv). exists c. split; [exact Hc|]. split; [exact Hv|].
  exact (verdict_only_after_screening env_maybe w 1 c Hr Hc).
Defined.

(** X5: in a reachable world an Approved claim carries verdict data whose
    verdict is the string "approved", a Rejected claim one whose verdict is
    "rejected", and neither is marked fraudulent. *)
Theorem approved_and_rejected_carry_their_verdict env w k c :
  reachable env w → store w !! k = Some c →
  (status c = APPROVED →
     isFraudulent c = false ∧
     ∃ d, oracleData c = Some d ∧ od_verdict d = "approved") ∧
  (status c = REJECTED →
     isFraudulent c = false ∧
     ∃ d, oracleData c = Some d ∧ od_verdict d = "rejected").
Proof.
  intros Hr Hc.
  destruct (reachable_world_inv env w Hr k c Hc) as (_ & _ & _ & _ & Hod & Hv & _).
  split; intros Hs.
  - destruct Hv as [d Hd]; [by left|]. destruct (Hod d Hd) as (_ & Hf & Hm).
    split; [done|]. exists d. split; [done|].
    apply verdictStatus_inv. congruence.
  - destruct Hv as [d Hd]; [by right|]. destruct (Hod d Hd) as (_ & Hf & Hm).
    split; [done|]. exists d. split; [done|].
    apply verdictStatus_inv. congruence.
Qed.

Lemma approved_and_rejected_carry_their_verdict_witness :
  let w := (processClaim env_ok 1 (one_claim env_ok)).1 in
  reachable env_ok w ∧
  ∃ c, store w !! 1 = Some c ∧ status c = APPROVED ∧
    isFraudulent c = false ∧
    ∃ d, oracleData c = Some d ∧ od_verdict d = "approved".
Proof.
  intros w.
  assert (Hr : reachable env_ok w).
  { apply reach_process. unfold one_claim. apply reach_create, reach_init. }
  split; [exact Hr|].
  assert (Hc : ∃ c, store w !! 1 = Some c ∧ status c = APPROVED).
  { eexists. split; vm_compute; reflexivity. }
  destruct Hc as (c & Hc & Hs). exists c. split; [exact Hc|]. split; [exact Hs|].
  exact (proj1 (approved_and_rejected_carry_their_verdict env_ok w 1 c Hr Hc) Hs).
Defined.



Lemma filter_length_le (p q : Claim → bool) (l : list Claim) :
  (∀ c, c ∈ l → p c = true → q c = true) →
  (length (List.filter p l) ≤ length (List.filter q l))%nat.
Proof.
  induction l as [|c l IH]; [done|]. intros H. cbn.
  assert (IH' : (length (List.filter p l) ≤ length (List.filter q l))%nat).
  { apply IH. intros c' Hin. apply H. by right. }
  destruct (p c) eqn:Hp.
  - rewrite (H c (list_elem_of_here _ _) Hp). cbn. lia.
  - destruct (q c); cbn; lia.
Qed.

Lemma count_le (p q : Claim → bool) w :
  (∀ k c, store w !! k = Some c → p c = true → q c = true) →
  count p w ≤ count q w.
Proof.
  intros H. unfold count. apply inj_le, filter_length_le.
  intros c Hin. apply list_elem_of_fmap in Hin as [[k c'] [-> Hin]].
  apply elem_of_map_to_list in Hin. by apply (H k).
Qed.

(** X7: on a reachable world the numbers [getClaimStats] returns are
    consistent with the lifecycle: as many claims are Flagged as are
    fraudulent, the claims not yet screened are all among the Pending
    ones, and every Approved, Rejected or Flagged claim counts as
    screened. *)
Theorem getClaimStats_consistent env w :
  reachable env w →
  ∃ s, getClaimStats w = (w, inr s) ∧
    st_flagged s = st_fraudulent s ∧
    0 ≤ st_fraudCheckPending s ≤ st_pending s ∧
    st_approved s + st_rejected s + st_flagged s ≤ st_fraudCheckCompleted s.
Proof.
  intros Hr. pose proof (reachable_world_inv env w Hr) as Hinv.
  eexists. split; [reflexivity|]. cbn.
  assert (Hlen : length (map_to_list (store w)).*2 = size (store w))
    by (by rewrite length_fmap, length_map_to_list).
  pose proof (filter_split_length fraudCheckCompleted (map_to_list (store w)).*2)
    as Hsplit.
  pose proof (filter_status_length (map_to_list (store w)).*2) as Hstatus.
  pose proof (filter_true_length (map_to_list (store w)).*2) as Htrue.
  assert (Hfl : count (λ c, ClaimStatus_eqb (status c) FLAGGED) w = count isFraudulent w).
  { apply Z.le_antisymm; apply count_le; intros k c Hc;
      destruct (Hinv k c Hc) as (_ & _ & [Hflag Hcompl] & _).
    - intros Heq. apply ClaimStatus_eqb_eq in Heq. by apply Hflag in Heq as [? _].
    - intros Hf. apply ClaimStatus_eqb_eq. apply Hflag. auto. }
  assert (Hpend : count (λ c, negb (fraudCheckCompleted c)) w
                  ≤ count (λ c, ClaimStatus_eqb (status c) PENDING) w).
  { apply count_le. intros k c Hc Hn.
    destruct (Hinv k c Hc) as (_ & _ & _ & Hterm & _).
    apply ClaimStatus_eqb_eq.
    destruct (decide (status c = PENDING)) as [|Hne]; [done|].
    rewrite (Hterm Hne) in Hn. done. }
  unfold count in *. rewrite Hlen in *. lia.
Qed.

Lemma getClaimStats_consistent_witness :
  let w := (processClaim env_fraud 1 (one_claim env_fraud)).1 in
  reachable env_fraud w ∧
  ∃ s, getClaimStats w = (w, inr s) ∧
    st_flagged s = 1 ∧
    st_flagged s = st_fraudulent s ∧
    0 ≤ st_fraudCheckPending s ≤ st_pending s ∧
    st_approved s + st_rejected s + st_flagged s ≤ st_fraudCheckCompleted s.
Proof.
  intros w.
  assert (Hr : reachable env_fraud w).
  { apply reach_process. unfold one_claim. apply reach_create, reach_init. }
  split; [exact Hr|].
  destruct (getClaimStats_consistent env_fraud w Hr) as (s & Hs & Hrest).
  exists s. split; [exact Hs|]. split; [|exact Hrest].
  assert (Hv : (getClaimStats w).2 = inr s) by (by rewrite Hs).
  vm_compute in Hv. injection Hv as <-. reflexivity.
Defined.

(** ** Further properties: reading, listing and removing claims *)

Lemma same_user_spec c uid : same_user c uid = true ↔ uid = Some (userId c).
Proof.
  destruct uid as [u|]; cbn; [|done].
  rewrite String.eqb_eq. split; [by intros ->|by intros [= ->]].
Qed.

Lemma same_user_false c uid : same_user c uid = false ↔ uid ≠ Some (userId c).
Proof.
  rewrite <- same_user_spec. by destruct (same_user c uid).
Qed.

(** X8: the service's [findOne] never changes the world and hands out a
    claim exactly when it is stored under the requested id and the caller
    is an administrator or passed the owner's user id; a caller who omits
    the user id and is no administrator gets nothing.  When it fails, the
    error is NotFound exactly when no claim has that id (whoever asks),
    and Forbidden exactly when the claim exists. *)
Theorem service_findOne_access env w claimId uid isAdmin :
  (service_findOne env claimId uid isAdmin w).1 = w ∧
  (∀ d, (service_findOne env claimId uid isAdmin w).2 = inr d ↔
        ∃ c, store w !! claimId = Some c ∧ d = RetDto c ∧
             (isAdmin = true ∨ uid = Some (userId c))) ∧
  (∀ e, (service_findOne env claimId uid isAdmin w).2 = inl e →
        (kind_of e = NotFound ↔ store w !! claimId = None) ∧
        (kind_of e = Forbidden ↔ is_Some (store w !! claimId))).
Proof.
  unfold service_findOne. unfold_M. cbn.
  destruct (store w !! claimId) as [c|] eqn:Hl; cbn.
  - destruct isAdmin; cbn.
    + split; [done|]. split; [|done].
      intros d. split; [intros [= <-]; eauto|].
      by intros (c' & [= <-] & -> & _).
    + destruct (same_user c uid) eqn:Hu; cbn.
      * apply same_user_spec in Hu. split; [done|]. split; [|done].
        intros d. split; [intros [= <-]; eauto|].
        by intros (c' & [= <-] & -> & _).
      * apply same_user_false in Hu. split; [done|]. split.
        -- intros d. split; [done|].
           intros (c' & [= <-] & _ & [?|?]); done.
        -- intros e [= <-]. cbn. split; split; try done; eauto.
  - split; [done|]. split.
    + intros d. split; [done|]. by intros (c' & ? & _).
    + intros e [= <-]. cbn. split; split; try done; by intros [? ?].
Qed.

(** X9: [remove] refuses without touching anything: on an id with no
    claim it throws NotFound, and on a claim whose owner is not the user id
    the caller passed it throws Forbidden unless the caller is an
    administrator; in both cases the world is the one it started from. *)
Theorem remove_refused w claimId uid :
  (store w !! claimId = None →
     ∀ isAdmin, ∃ e, remove claimId uid isAdmin w = (w, inl e) ∧ kind_of e = NotFound) ∧
  (∀ c, store w !! claimId = Some c → uid ≠ Some (userId c) →
     remove claimId uid false w =
       (w, inl (ForbiddenException "You can only delete your own claims"))).
Proof.
  unfold remove. unfold_M. split.
  - intros -> isAdmin. eauto.
  - intros c -> Hu. apply same_user_false in Hu. cbn. by rewrite Hu.
Qed.

Lemma remove_refused_witness :
  (store (one_claim env_ok) !! 9 = None ∧
   ∃ e, remove 9 (Some "u1") true (one_claim env_ok) = (one_claim env_ok, inl e) ∧
        kind_of e = NotFound) ∧
  (store (one_claim env_ok) !! 1 = Some fresh_row ∧
   remove 1 (Some "u2") false (one_claim env_ok) =
     (one_claim env_ok, inl (ForbiddenException "You can only delete your own claims"))).
Proof.
  split.
  - split; [reflexivity|].
    exact (proj1 (remove_refused (one_claim env_ok) 9 (Some "u1")) eq_refl true).
  - assert (H : store (one_claim env_ok) !! 1 = Some fresh_row) by reflexivity.
    split; [exact H|].
    apply (proj2 (remove_refused (one_claim env_ok) 1 (Some "u2")) fresh_row H).
    discriminate.
Defined.

(** X10: when the owner or an administrator removes a stored claim,
    [remove] returns normally, exactly that row leaves the table and no
    collaborator is called; from then on [findOne], [processClaim] and
    [runFraudDetection] on that id all fail with NotFound and change
    nothing. *)
Theorem remove_then_gone env w claimId c uid isAdmin :
  stored w claimId c → isAdmin = true ∨ uid = Some (userId c) →
  ∃ w', remove claimId uid isAdmin w = (w', inr tt) ∧
    store w' = delete claimId (store w) ∧ trace w' = trace w ∧
    (∃ e, service_findOne env claimId uid isAdmin w' = (w', inl e) ∧
          kind_of e = NotFound) ∧
    (∃ e, processClaim env claimId w' = (w', inl e) ∧ kind_of e = NotFound) ∧
    (∃ e, runFraudDetection env claimId w' = (w', inl e) ∧ kind_of e = NotFound).
Proof.
  intros [Hl Hid] Hauth.
  assert (negb isAdmin && negb (same_user c uid) = false) as Hguard.
  { destruct Hauth as [->|Hu]; [done|].
    apply same_user_spec in Hu. rewrite Hu. by destruct isAdmin. }
  eexists. split.
  { unfold remove, repository_remove. unfold_M. rewrite Hl. cbn.
    rewrite Hguard, Hid. reflexivity. }
  cbn. split; [done|]. split; [done|].
  set (w' := mkWorld (delete claimId (store w)) (nextId w) (trace w) (logs w) (timers w)).
  assert (store w' !! claimId = None) as Hgone by apply lookup_delete_eq.
  split_and!.
  - exists (NotFoundException ("Claim with ID " +:+ pretty claimId +:+ " not found")).
    split; [|reflexivity].
    unfold service_findOne. unfold_M. by rewrite Hgone.
  - eexists. split; [apply processClaim_rejects; congruence|done].
  - eexists. split; [by apply runFraudDetection_missing|done].
Qed.

Lemma remove_then_gone_witness :
  stored (one_claim env_ok) 1 fresh_row ∧
  ∃ w', remove 1 (Some "u1") false (one_claim env_ok) = (w', inr tt) ∧
    store w' = delete 1 (store (one_claim env_ok)) ∧
    trace w' = trace (one_claim env_ok) ∧
    (∃ e, service_findOne env_ok 1 (Some "u1") false w' = (w', inl e) ∧
          kind_of e = NotFound) ∧
    (∃ e, processClaim env_ok 1 w' = (w', inl e) ∧ kind_of e = NotFound) ∧
    (∃ e, runFraudDetection env_ok 1 w' = (w', inl e) ∧ kind_of e = NotFound).
Proof.
  assert (H : stored (one_claim env_ok) 1 fresh_row) by (split; reflexivity).
  split; [exact H|].
  exact (remove_then_gone env_ok (one_claim env_ok) 1 fresh_row (Some "u1") false
           H (or_intror eq_refl)).
Defined.

(** X11: the queued screening is fire and forget.  The callback never
    throws, whatever the detector does, and takes its claim id off the
    queue; with an empty queue it does nothing; and when the claim it was
    queued for is gone, it changes neither the store nor the trace nor
    even the log. *)
Theorem runTimer_never_throws env w :
  (runTimer env w).2 = inr tt ∧
  (timers w = [] → runTimer env w = (w, inr tt)) ∧
  (∀ claimId rest, timers w = claimId :: rest → store w !! claimId = None →
     runTimer env w =
       (mkWorld (store w) (nextId w) (trace w) (logs w) rest, inr tt)).
Proof.
  unfold runTimer, try_catch. split; [|split].
  - destruct (timers w) as [|claimId rest]; [done|].
    by destruct (runFraudDetection env claimId _) as [w' [e|[]]].
  - by intros ->.
  - intros claimId rest -> Hnone.
    by rewrite runFraudDetection_missing.
Qed.

Lemma runTimer_never_throws_witness :
  let w := (remove 1 (Some "u1") false (one_claim env_ok)).1 in
  timers w = [1] ∧ store w !! 1 = None ∧
  runTimer env_ok w = (mkWorld (store w) (nextId w) (trace w) (logs w) [], inr tt) ∧
  (runTimer env_screener_down (one_claim env_screener_down)).2 = inr tt.
Proof.
  intros w. split; [reflexivity|]. split; [reflexivity|]. split.
  - exact (proj2 (proj2 (runTimer_never_throws env_ok w)) 1 [] eq_refl eq_refl).
  - exact (proj1 (runTimer_never_throws env_screener_down (one_claim env_screener_down))).
Defined.

#[global] Instance newest_first_trans createdAt : Transitive (newest_first createdAt).
Proof. unfold newest_first. intros a b c ? ?. lia. Qed.

#[global] Instance newest_first_total createdAt : Total (newest_first createdAt).
Proof. unfold newest_first. intros a b. lia. Qed.

Lemma row_of_table (c : Claim) (s : gmap Z Claim) :
  c ∈ (map_to_list s).*2 ↔ ∃ k, s !! k = Some c.
Proof.
  rewrite list_elem_of_fmap. split.
  - intros [[k c'] [-> Hin]]. exists k. by apply elem_of_map_to_list.
  - intros [k Hk]. exists (k, c). split; [done|]. by apply elem_of_map_to_list.
Qed.

Lemma filter_true_id (l : list Claim) : List.filter (λ _, true) l = l.
Proof. induction l as [|c l IH]; [done|]. cbn. by rewrite IH. Qed.

Lemma repository_find_spec createdAt p w :
  ∃ claims, repository_find createdAt p w = (w, inr claims) ∧
    claims ≡ₚ List.filter p (map_to_list (store w)).*2 ∧
    StronglySorted (newest_first createdAt) claims ∧
    (∀ c, c ∈ claims ↔ p c = true ∧ ∃ k, store w !! k = Some c).
Proof.
  eexists. split; [reflexivity|].
  split; [apply merge_sort_Permutation|].
  split; [apply StronglySorted_merge_sort; apply _|].
  intros c. rewrite merge_sort_Permutation, list_elem_of_In, filter_In.
  rewrite <- list_elem_of_In, row_of_table. tauto.
Qed.

Lemma findAllByUser_rows createdAt w uid :
  ∃ claims, findAllByUser createdAt uid w = (w, inr (RetDto <$> claims)) ∧
    (∀ c, c ∈ claims ↔ userId c = uid ∧ ∃ k, store w !! k = Some c).
Proof.
  destruct (repository_find_spec createdAt (λ c, String.eqb (userId c) uid) w)
    as (claims & Hrun & _ & _ & Hmem).
  exists claims. split.
  - unfold findAllByUser. unfold_M. by rewrite Hrun.
  - intros c. rewrite Hmem, String.eqb_eq. tauto.
Qed.

(** X12: [findAllByUser] changes nothing and returns one DTO per stored
    claim of that user and no other: a claim is listed exactly when it is
    in the table and its owner is the user asked for, the list is as long
    as the number of that user's rows, and it runs from the newest claim to
    the oldest. *)
Theorem findAllByUser_lists_own_claims createdAt w uid :
  ∃ claims, findAllByUser createdAt uid w = (w, inr (RetDto <$> claims)) ∧
    (∀ c, c ∈ claims ↔ userId c = uid ∧ ∃ k, store w !! k = Some c) ∧
    Z.of_nat (length claims) = rows_where (λ c, String.eqb (userId c) uid) (store w) ∧
    StronglySorted (newest_first createdAt) claims.
Proof.
  destruct (repository_find_spec createdAt (λ c, String.eqb (userId c) uid) w)
    as (claims & Hrun & Hperm & Hsorted & Hmem).
  exists claims. split; [|split; [|split; [|done]]].
  - unfold findAllByUser. unfold_M. by rewrite Hrun.
  - intros c. rewrite Hmem, String.eqb_eq. tauto.
  - rewrite <- count_rows_where. unfold count. by rewrite Hperm.
Qed.

(** X13: [findAll] changes nothing and returns every stored claim once,
    newest first: the list is a rearrangement of the table's rows and has
    as many entries as the table has claims. *)
Theorem findAll_lists_every_claim createdAt w :
  ∃ claims, findAll createdAt w = (w, inr (RetDto <$> claims)) ∧
    claims ≡ₚ (map_to_list (store w)).*2 ∧
    length claims = size (store w) ∧
    (∀ k c, store w !! k = Some c → c ∈ claims) ∧
    StronglySorted (newest_first createdAt) claims.
Proof.
  destruct (repository_find_spec createdAt (λ _, true) w)
    as (claims & Hrun & Hperm & Hsorted & Hmem).
  rewrite filter_true_id in Hperm.
  exists claims. split_and!; try done.
  - unfold findAll. unfold_M. by rewrite Hrun.
  - by rewrite Hperm, length_fmap, length_map_to_list.
  - intros k c Hc. apply Hmem. eauto.
Qed.

(** X14: listing and reading agree.  On a table whose rows sit under
    their own ids, a DTO is in the list [findAllByUser] returns for a user
    exactly when it is the DTO of a claim of that user which that user, not
    being an administrator, can fetch by id with [findOne]. *)
Theorem listed_claims_are_readable env createdAt w uid :
  (∀ k c, store w !! k = Some c → id c = k) →
  ∃ dtos, findAllByUser createdAt uid w = (w, inr dtos) ∧
    ∀ d, d ∈ dtos ↔
      ∃ c, d = RetDto c ∧ userId c = uid ∧
           service_findOne env (id c) (Some uid) false w = (w, inr d).
Proof.
  intros Hwf.
  destruct (findAllByUser_rows createdAt w uid) as (claims & Hrun & Hmem).
  exists (RetDto <$> claims). split; [done|].
  intros d. rewrite list_elem_of_fmap. split.
  - intros (c & -> & Hin). apply Hmem in Hin as (Hu & k & Hk).
    exists c. split; [done|]. split; [done|].
    unfold service_findOne. unfold_M. cbn.
    rewrite (Hwf k c Hk), Hk. cbn. rewrite Hu, String.eqb_refl. done.
  - intros (c & -> & Hu & Hget). exists c. split; [done|].
    apply Hmem. split; [done|]. exists (id c).
    unfold service_findOne in Hget. unfold_M. cbn in Hget.
    destruct (store w !! id c) as [c'|]; cbn in Hget; [|done].
    destruct (String.eqb (userId c') uid); cbn in Hget; congruence.
Qed.

Lemma listed_claims_are_readable_witness :
  (∀ k c, store three_claims !! k = Some c → id c = k) ∧
  ∃ dtos, findAllByUser by_id "u1" three_claims = (three_claims, inr dtos) ∧
    length dtos = 2%nat ∧
    ∀ d, d ∈ dtos ↔
      ∃ c, d = RetDto c ∧ userId c = "u1" ∧
           service_findOne env_ok (id c) (Some "u1") false three_claims
             = (three_claims, inr d).
Proof.
  assert (Hwf : ∀ k c, store three_claims !! k = Some c → id c = k).
  { apply world_inv_ids, (reachable_world_inv env_ok).
    unfold three_claims. do 3 apply reach_create. apply reach_init. }
  split; [exact Hwf|].
  destruct (listed_claims_are_readable env_ok by_id three_claims "u1" Hwf)
    as (dtos & Hrun & Hiff).
  exists dtos. split; [exact Hrun|]. split; [|exact Hiff].
  assert (Hv : (findAllByUser by_id "u1" three_claims).2 = inr dtos) by (by rewrite Hrun).
  vm_compute in Hv. injection Hv as <-. reflexivity.
Defined.

(** ** Further properties: the paths of [processClaim] *)

Lemma notifier_calls_app tr1 tr2 :
  notifier_calls (tr1 ++ tr2) = (notifier_calls tr1 + notifier_calls tr2)%nat.
Proof.
  induction tr1 as [|ev tr1 IH]; [done|].
  destruct ev; cbn; rewrite IH; lia.
Qed.

Lemma after_nil w s l :
  mkWorld s (nextId w) (trace w) (logs w ++ l) (timers w) = after w s [] l.
Proof. unfold after. by rewrite app_nil_r. Qed.

(** Every way [processClaim] can run on a stored Pending claim. *)
Lemma processClaim_paths env w claimId c :
  stored w claimId c → status c = PENDING →
  ∃ l,
    (fraudCheckCompleted c = true ∧ isFraudulent c = true ∧
     processClaim env claimId w = (after w (store w) [] l, inr RetVoid)) ∨
    (fraudCheckCompleted c = true ∧ isFraudulent c = false ∧
     ∃ e, verifyClaim env (length (trace w)) claimId (description c) = inl e ∧
       processClaim env claimId w =
         (after w (store w) [EvVerifyClaim claimId (description c)] l, inl e)) ∨
    (fraudCheckCompleted c = true ∧ isFraudulent c = false ∧
     ∃ v, verifyClaim env (length (trace w)) claimId (description c) = inr v ∧
       let c' := judged v (clock env (S (length (trace w)))) c in
       processClaim env claimId w =
         (after w (<[claimId := c']> (store w))
            ([EvVerifyClaim claimId (description c); EvSave c']
               ++ processing_notice env c c' v) l, inr RetVoid)) ∨
    (fraudCheckCompleted c = false ∧
     ∃ e, detectFraud env (length (trace w)) c = inl e ∧
       let c1 := set_fraudCheckCompleted true c in
       processClaim env claimId w =
         (after w (<[claimId := c1]> (store w)) [EvDetectFraud c; EvSave c1] l, inl e)) ∨
    (fraudCheckCompleted c = false ∧
     ∃ r, detectFraud env (length (trace w)) c = inr r ∧
       let c1 := screened env w c r in
       (fr_isFraudulent r = true ∧
        processClaim env claimId w =
          (after w (<[claimId := c1]> (store w)) [EvDetectFraud c; EvSave c1] l,
           inr RetVoid)) ∨
       (fr_isFraudulent r = false ∧
        ∃ e, verifyClaim env (length (trace w) + 2) claimId (description c) = inl e ∧
          processClaim env claimId w =
            (after w (<[claimId := c1]> (store w))
               [EvDetectFraud c; EvSave c1; EvVerifyClaim claimId (description c)] l,
             inl e)) ∨
       (fr_isFraudulent r = false ∧
        ∃ v, verifyClaim env (length (trace w) + 2) claimId (description c) = inr v ∧
          let c' := judged v (clock env (length (trace w) + 3)) c1 in
          processClaim env claimId w =
            (after w (<[claimId := c']> (store w))
               ([EvDetectFraud c; EvSave c1;
                 EvVerifyClaim claimId (description c); EvSave c']
                  ++ processing_notice env c c' v) l, inr RetVoid))).
Proof.
  intros Hst Hs. unfold after.
  destruct (fraudCheckCompleted c) eqn:Hcompl.
  - destruct (isFraudulent c) eqn:Hf.
    + destruct (processClaim_prior_fraud env w claimId c Hst Hs Hcompl Hf) as [l ->].
      exists l. left. by rewrite app_nil_r.
    + destruct (verifyClaim env (length (trace w)) claimId (description c))
        as [e|v] eqn:Hv.
      * destruct (processClaim_screened_oracle_fails env w claimId c e
                    Hst Hs Hcompl Hf Hv) as [l ->].
        exists l. right; left. eauto.
      * destruct (processClaim_screened_verdict env w claimId c v
                    Hst Hs Hcompl Hf Hv) as [l ->].
        exists l. do 2 right; left. eauto.
  - destruct (detectFraud env (length (trace w)) c) as [e|r] eqn:Hd.
    + destruct (processClaim_screening_fails env w claimId c e Hst Hs Hcompl Hd)
        as [l ->].
      exists l. do 3 right; left. eauto.
    + destruct (fr_isFraudulent r) eqn:Hf.
      * destruct (processClaim_flags env w claimId c r Hst Hs Hcompl Hd Hf) as [l ->].
        exists l. do 4 right. split; [done|]. exists r. split; [done|]. by left.
      * destruct (verifyClaim env (length (trace w) + 2) claimId (description c))
          as [e|v] eqn:Hv.
        -- destruct (processClaim_fresh_oracle_fails env w claimId c r e
                       Hst Hs Hcompl Hd Hf Hv) as [l ->].
           exists l. do 4 right. split; [done|]. exists r. split; [done|].
           right; left. eauto.
        -- destruct (processClaim_fresh_verdict env w claimId c r v
                       Hst Hs Hcompl Hd Hf Hv) as [l ->].
           exists l. do 4 right. split; [done|]. exists r. split; [done|].
           right; right. eauto.
Qed.

Lemma notifier_calls_notice env c c' v :
  notifier_calls (processing_notice env c c' v) =
    match user_relation env (userId c) with Some _ => 1%nat | None => 0%nat end.
Proof. unfold processing_notice. by destruct (user_relation env _). Qed.

Lemma screener_calls_notice env c c' v :
  screener_calls (processing_notice env c c' v) = 0%nat.
Proof. unfold processing_notice. by destruct (user_relation env _). Qed.

Ltac count_calls :=
  cbn [fst snd trace after];
  rewrite ?screener_calls_app, ?oracle_calls_app, ?notifier_calls_app,
          ?screener_calls_notice, ?oracle_calls_notice, ?notifier_calls_notice;
  cbn [screener_calls oracle_calls notifier_calls].

(** X15: one call of [processClaim] on a Pending claim asks the fraud
    detector at most once, and not at all when the claim was screened
    before; asks the oracle at most once; and notifies at most once.  It
    notifies exactly when it returns normally after having asked the
    oracle and the claim's user relation is loaded: never on a failure,
    never for a claim it found or made fraudulent. *)
Theorem processClaim_call_budget env w claimId c :
  stored w claimId c → status c = PENDING →
  let run := processClaim env claimId w in
  (screener_calls (trace run.1) ≤ S (screener_calls (trace w)))%nat ∧
  (fraudCheckCompleted c = true →
     screener_calls (trace run.1) = screener_calls (trace w)) ∧
  (oracle_calls (trace run.1) ≤ S (oracle_calls (trace w)))%nat ∧
  (notifier_calls (trace run.1) ≤ S (notifier_calls (trace w)))%nat ∧
  (notifier_calls (trace run.1) = S (notifier_calls (trace w)) ↔
     is_Some (user_relation env (userId c)) ∧ run.2 = inr RetVoid ∧
     oracle_calls (trace run.1) = S (oracle_calls (trace w))).
Proof.
  intros Hst Hs run. subst run.
  destruct (processClaim_paths env w claimId c Hst Hs) as [l Hpaths].
  destruct Hpaths as
    [(Hc & Hf & ->)|[(Hc & Hf & e & Hv & ->)|[(Hc & Hf & v & Hv & ->)|
     [(Hc & e & Hd & ->)|(Hc & r & Hd &
        [(Hf & ->)|[(Hf & e & Hv & ->)|(Hf & v & Hv & ->)]])]]]];
    count_calls.
  all: try (destruct (user_relation env (userId c)) as [u|] eqn:Hu).
  all: split_and!; try lia; try congruence.
  all: try (split; [lia|intros (? & ? & ?); (lia || congruence)]).
  all: try (split; [intros _; split_and!; (done || lia || eauto)|lia]).
  all: try (split; [lia|intros ([? ?] & _); congruence]).
Qed.

Lemma processClaim_call_budget_witness :
  stored (one_claim env_ok) 1 fresh_row ∧ status fresh_row = PENDING ∧
  let run := processClaim env_ok 1 (one_claim env_ok) in
  (screener_calls (trace run.1) ≤ S (screener_calls (trace (one_claim env_ok))))%nat ∧
  (fraudCheckCompleted fresh_row = true →
     screener_calls (trace run.1) = screener_calls (trace (one_claim env_ok))) ∧
  (oracle_calls (trace run.1) ≤ S (oracle_calls (trace (one_claim env_ok))))%nat ∧
  (notifier_calls (trace run.1) ≤ S (notifier_calls (trace (one_claim env_ok))))%nat ∧
  (notifier_calls (trace run.1) = S (notifier_calls (trace (one_claim env_ok))) ↔
     is_Some (user_relation env_ok (userId fresh_row)) ∧ run.2 = inr RetVoid ∧
     oracle_calls (trace run.1) = S (oracle_calls (trace (one_claim env_ok)))).
Proof.
  assert (H : stored (one_claim env_ok) 1 fresh_row) by (split; reflexivity).
  split; [exact H|]. split; [reflexivity|].
  exact (processClaim_call_budget env_ok (one_claim env_ok) 1 fresh_row H eq_refl).
Defined.

(** ** Further properties: creating and updating claims *)

(** X16: [create] always returns the saved claim, whatever the user
    service and the notifier do.  The claim is stored under the id the
    store generated, Pending, unscreened, not fraudulent and without fraud
    or verdict data; its screening is queued, not run: neither the
    detector nor the oracle is called.  The notifier is called once if the
    user service returned a user, and not at all if it returned none or
    threw. *)
Theorem create_always_succeeds env w dto uid :
  ∃ w' c,
    create env dto uid w = (w', inr (RetDto c)) ∧
    store w' !! nextId w = Some c ∧ id c = nextId w ∧
    userId c = uid ∧ description c = cc_description dto ∧
    status c = PENDING ∧ fraudCheckCompleted c = false ∧ isFraudulent c = false ∧
    fraudConfidenceScore c = None ∧ fraudDetectionData c = None ∧
    oracleData c = None ∧
    timers w' = timers w ++ [id c] ∧
    screener_calls (trace w') = screener_calls (trace w) ∧
    oracle_calls (trace w') = oracle_calls (trace w) ∧
    notifier_calls (trace w') =
      (notifier_calls (trace w) +
       match userService_findOne env (S (length (trace w))) uid with
       | inr (Some _) => 1
       | _ => 0
       end)%nat.
Proof.
  destruct (create_store env dto uid w) as [l ->].
  eexists _, _. split; [reflexivity|]. cbn.
  rewrite lookup_insert_eq, screener_calls_app, oracle_calls_app, notifier_calls_app.
  cbn. split_and!; try done.
  - destruct (userService_findOne env _ uid) as [?|[?|]]; cbn; lia.
  - destruct (userService_findOne env _ uid) as [?|[?|]]; cbn; lia.
  - destruct (userService_findOne env _ uid) as [?|[?|]]; cbn; lia.
Qed.

Lemma id_assign_dto dto c : id (assign_dto dto c) = id c.
Proof. unfold assign_dto. by destruct (uc_status dto), (uc_description dto). Qed.

(** X17: [update] is for administrators only, and checks existence
    first: on an id with no claim it throws NotFound whoever calls, and on
    an existing claim every caller who is not an administrator, the owner
    included, gets Forbidden; in both cases the world is the one it started
    from. *)
Theorem update_refused env w claimId dto uid :
  (store w !! claimId = None →
     ∀ isAdmin, ∃ e, update env claimId dto uid isAdmin w = (w, inl e) ∧
                     kind_of e = NotFound) ∧
  (is_Some (store w !! claimId) →
     update env claimId dto uid false w =
       (w, inl (ForbiddenException "Only administrators can update claims"))).
Proof.
  unfold update. unfold_M. split.
  - intros -> isAdmin. cbn. eauto.
  - by intros [c ->].
Qed.

Lemma update_refused_witness :
  (store (one_claim env_ok) !! 9 = None ∧
   ∃ e, update env_ok 9 (mkUpdateClaimDto (Some APPROVED) None) None true
               (one_claim env_ok) = (one_claim env_ok, inl e) ∧
        kind_of e = NotFound) ∧
  (is_Some (store (one_claim env_ok) !! 1) ∧
   update env_ok 1 (mkUpdateClaimDto (Some APPROVED) None) (Some "u1") false
          (one_claim env_ok) =
     (one_claim env_ok, inl (ForbiddenException "Only administrators can update claims"))).
Proof.
  split.
  - split; [reflexivity|].
    exact (proj1 (update_refused env_ok (one_claim env_ok) 9
                    (mkUpdateClaimDto (Some APPROVED) None) None) eq_refl true).
  - assert (H : is_Some (store (one_claim env_ok) !! 1)) by (by eexists).
    split; [exact H|].
    exact (proj2 (update_refused env_ok (one_claim env_ok) 1
                    (mkUpdateClaimDto (Some APPROVED) None) (Some "u1")) H).
Defined.

(** X18: an administrator's [update] of a stored claim saves the claim
    with the DTO's properties written over it and touches no other row; it
    never calls the fraud detector or the oracle and queues no screening,
    so changing a status by hand triggers no re-evaluation.  The notifier
    is called once when the DTO carries a status different from the one the
    claim had, and not at all when the status is absent or the same.  When
    the claim's user relation is loaded the call returns the saved claim. *)
Theorem update_by_admin env w claimId c dto uid :
  stored w claimId c →
  let run := update env claimId dto uid true w in
  store run.1 = <[claimId := assign_dto dto c]> (store w) ∧
  timers run.1 = timers w ∧
  screener_calls (trace run.1) = screener_calls (trace w) ∧
  oracle_calls (trace run.1) = oracle_calls (trace w) ∧
  notifier_calls (trace run.1) =
    (notifier_calls (trace w) +
     match uc_status dto with
     | Some s => if ClaimStatus_eqb (status c) s then 0 else 1
     | None => 0
     end)%nat ∧
  (is_Some (user_relation env (userId c)) →
     run.2 = inr (RetDto (assign_dto dto c))).
Proof.
  intros [Hl Hid] run. subst run. unfold update. unfold_M.
  rewrite Hl. cbn. rewrite id_assign_dto, Hid.
  destruct (uc_status dto) as [s|] eqn:Hs; cbn.
  - destruct (ClaimStatus_eqb (status c) s) eqn:Heq; cbn.
    + rewrite screener_calls_app, oracle_calls_app, notifier_calls_app. cbn.
      split_and!; try done; lia.
    + destruct (sendClaimStatusNotification env _ _) as [e|[]]; cbn.
      * destruct (user_relation env (userId c)) as [u|] eqn:Hu; cbn;
          rewrite <- !app_assoc, screener_calls_app, oracle_calls_app,
                  notifier_calls_app; cbn;
          split_and!; try done; try lia.
      * rewrite <- !app_assoc, screener_calls_app, oracle_calls_app,
                notifier_calls_app. cbn.
        split_and!; try done; lia.
  - rewrite screener_calls_app, oracle_calls_app, notifier_calls_app. cbn.
    split_and!; try done; lia.
Qed.

Lemma update_by_admin_witness :
  stored (cleared_claim env_notifier_down) 1
    (screened env_notifier_down (one_claim env_notifier_down) fresh_row legitimate) ∧
  let c := screened env_notifier_down (one_claim env_notifier_down) fresh_row legitimate in
  let dto := mkUpdateClaimDto (Some REJECTED) (Some "storm damage") in
  let run := update env_notifier_down 1 dto None true (cleared_claim env_notifier_down) in
  store run.1 = <[1 := assign_dto dto c]> (store (cleared_claim env_notifier_down)) ∧
  timers run.1 = timers (cleared_claim env_notifier_down) ∧
  screener_calls (trace run.1) = screener_calls (trace (cleared_claim env_notifier_down)) ∧
  oracle_calls (trace run.1) = oracle_calls (trace (cleared_claim env_notifier_down)) ∧
  notifier_calls (trace run.1) =
    (notifier_calls (trace (cleared_claim env_notifier_down)) +
     match uc_status dto with
     | Some s => if ClaimStatus_eqb (status c) s then 0 else 1
     | None => 0
     end)%nat ∧
  (is_Some (user_relation env_notifier_down (userId c)) →
     run.2 = inr (RetDto (assign_dto dto c))).
Proof.
  assert (H : stored (cleared_claim env_notifier_down) 1
                (screened env_notifier_down (one_claim env_notifier_down)
                          fresh_row legitimate))
    by (split; vm_compute; reflexivity).
  split; [exact H|].
  exact (update_by_admin env_notifier_down (cleared_claim env_notifier_down) 1 _
           (mkUpdateClaimDto (Some REJECTED) (Some "storm damage")) None H).
Defined.

(** ** Further properties: screening results and retries *)

(** X19: when the fraud detector answers on an unscreened claim,
    [runFraudDetection] returns normally after one detector call and one
    save, without notifying anyone.  The saved claim has
    [fraudCheckCompleted] set, the detector's [isFraudulent] and
    confidence score, and fraud detection data made of the detector's
    reason and metadata, dated with the metadata's timestamp when there is
    one and with the clock otherwise.  Its status is Flagged if the
    detector said fraudulent and unchanged if not; id, owner, description
    and verdict data are unchanged, and so is every other row. *)
Theorem runFraudDetection_records_result env w claimId c r :
  stored w claimId c →
  fraudCheckCompleted c = false →
  detectFraud env (length (trace w)) c = inr r →
  ∃ w' c' d,
    runFraudDetection env claimId w = (w', inr tt) ∧
    store w' = <[claimId := c']> (store w) ∧
    fraudCheckCompleted c' = true ∧
    isFraudulent c' = fr_isFraudulent r ∧
    fraudConfidenceScore c' = Some (fr_confidenceScore r) ∧
    fraudDetectionData c' = Some d ∧
    fd_reason d = fr_reason r ∧ fd_metadata d = fr_metadata r ∧
    fd_riskFactors d = fr_metadata r ≫= riskFactors ∧
    fd_modelVersion d = fr_metadata r ≫= modelVersion ∧
    fd_detectedAt d =
      default (clock env (S (length (trace w)))) (fr_metadata r ≫= timestamp) ∧
    status c' = (if fr_isFraudulent r then FLAGGED else status c) ∧
    id c' = id c ∧ userId c' = userId c ∧ description c' = description c ∧
    oracleData c' = oracleData c ∧
    screener_calls (trace w') = S (screener_calls (trace w)) ∧
    saves_of claimId (trace w') = S (saves_of claimId (trace w)) ∧
    notifier_calls (trace w') = notifier_calls (trace w) ∧
    oracle_calls (trace w') = oracle_calls (trace w).
Proof.
  intros [Hl Hid] Hc Hd.
  destruct (runFraudDetection_ok env w claimId c r Hl Hc Hd) as [l ->].
  screened_fields env w c r.
  eexists _, (screened env w c r), _. split; [reflexivity|]. cbn.
  rewrite Hid, saves_of_app, screener_calls_app, notifier_calls_app, oracle_calls_app.
  cbn. rewrite Hid', Hid, Z.eqb_refl.
  split_and!; try done; try lia.
  unfold screened, applyFraudResult. by destruct (fr_isFraudulent r).
Qed.

Lemma runFraudDetection_records_result_witness :
  stored (one_claim env_fraud) 1 fresh_row ∧
  ∃ w' c' d,
    runFraudDetection env_fraud 1 (one_claim env_fraud) = (w', inr tt) ∧
    store w' = <[1 := c']> (store (one_claim env_fraud)) ∧
    fraudCheckCompleted c' = true ∧
    isFraudulent c' = fr_isFraudulent fraudulent ∧
    fraudConfidenceScore c' = Some (fr_confidenceScore fraudulent) ∧
    fraudDetectionData c' = Some d ∧
    fd_reason d = fr_reason fraudulent ∧ fd_metadata d = fr_metadata fraudulent ∧
    fd_riskFactors d = fr_metadata fraudulent ≫= riskFactors ∧
    fd_modelVersion d = fr_metadata fraudulent ≫= modelVersion ∧
    fd_detectedAt d =
      default (clock env_fraud (S (length (trace (one_claim env_fraud)))))
              (fr_metadata fraudulent ≫= timestamp) ∧
    status c' = (if fr_isFraudulent fraudulent then FLAGGED else status fresh_row) ∧
    id c' = id fresh_row ∧ userId c' = userId fresh_row ∧
    description c' = description fresh_row ∧
    oracleData c' = oracleData fresh_row ∧
    screener_calls (trace w') = S (screener_calls (trace (one_claim env_fraud))) ∧
    saves_of 1 (trace w') = S (saves_of 1 (trace (one_claim env_fraud))) ∧
    notifier_calls (trace w') = notifier_calls (trace (one_claim env_fraud)) ∧
    oracle_calls (trace w') = oracle_calls (trace (one_claim env_fraud)).
Proof.
  assert (H : stored (one_claim env_fraud) 1 fresh_row) by (split; reflexivity).
  split; [exact H|].
  exact (runFraudDetection_records_result env_fraud (one_claim env_fraud) 1
           fresh_row fraudulent H eq_refl eq_refl).
Defined.

(** X20: when the fraud detector throws during [processClaim] on an
    unscreened Pending claim, the call throws that error without asking
    the oracle and without notifying; what it leaves behind is the claim
    with [fraudCheckCompleted] set and nothing else changed, so the claim
    is still Pending. *)
Theorem processClaim_screening_failure env w claimId c e :
  stored w claimId c → status c = PENDING →
  fraudCheckCompleted c = false →
  detectFraud env (length (trace w)) c = inl e →
  ∃ w',
    processClaim env claimId w = (w', inl e) ∧
    store w' = <[claimId := set_fraudCheckCompleted true c]> (store w) ∧
    oracle_calls (trace w') = oracle_calls (trace w) ∧
    notifier_calls (trace w') = notifier_calls (trace w) ∧
    screener_calls (trace w') = S (screener_calls (trace w)).
Proof.
  intros Hst Hs Hc Hd.
  destruct (processClaim_screening_fails env w claimId c e Hst Hs Hc Hd) as [l ->].
  eexists. split; [reflexivity|]. cbn.
  rewrite oracle_calls_app, notifier_calls_app, screener_calls_app. cbn.
  split_and!; try done; lia.
Qed.

Lemma processClaim_screening_failure_witness :
  stored (one_claim env_screener_down) 1 fresh_row ∧
  ∃ w',
    processClaim env_screener_down 1 (one_claim env_screener_down)
      = (w', inl (Error "screener unavailable")) ∧
    store w' = <[1 := set_fraudCheckCompleted true fresh_row]>
                 (store (one_claim env_screener_down)) ∧
    oracle_calls (trace w') = oracle_calls (trace (one_claim env_screener_down)) ∧
    notifier_calls (trace w') = notifier_calls (trace (one_claim env_screener_down)) ∧
    screener_calls (trace w') = S (screener_calls (trace (one_claim env_screener_down))).
Proof.
  assert (H : stored (one_claim env_screener_down) 1 fresh_row) by (split; reflexivity).
  split; [exact H|].
  exact (processClaim_screening_failure env_screener_down _ 1 fresh_row
           (Error "screener unavailable") H eq_refl eq_refl eq_refl).
Defined.

(** X21: a failed screening does not block the claim.  After a
    [processClaim] whose detector call threw, a second [processClaim] on
    the same claim does not ask the detector again: it goes straight to the
    oracle, and when the oracle answers, the claim gets the status that
    answer maps to although no screening result was ever recorded for
    it. *)
Theorem processClaim_after_failed_screening env w claimId c e v :
  stored w claimId c → status c = PENDING →
  fraudCheckCompleted c = false → isFraudulent c = false →
  detectFraud env (length (trace w)) c = inl e →
  verifyClaim env (length (trace w) + 2) claimId (description c) = inr v →
  let w1 := (processClaim env claimId w).1 in
  ∃ w2 c2,
    processClaim env claimId w1 = (w2, inr RetVoid) ∧
    store w2 !! claimId = Some c2 ∧
    status c2 = verdictStatus v ∧
    (od_verdict <$> oracleData c2) = Some v ∧
    fraudCheckCompleted c2 = true ∧ isFraudulent c2 = false ∧
    fraudDetectionData c2 = fraudDetectionData c ∧
    fraudConfidenceScore c2 = fraudConfidenceScore c ∧
    screener_calls (trace w2) = S (screener_calls (trace w)) ∧
    oracle_calls (trace w2) = S (oracle_calls (trace w)).
Proof.
  intros Hst Hs Hc Hf Hd Hv w1. subst w1.
  destruct (processClaim_screening_fails env w claimId c e Hst Hs Hc Hd) as [l ->].
  destruct Hst as [Hl Hid]. cbn [fst].
  set (w1 := mkWorld _ _ _ _ _).
  assert (stored w1 claimId (set_fraudCheckCompleted true c)) as Hst1.
  { split; [apply lookup_insert_eq|done]. }
  assert (length (trace w1) = (length (trace w) + 2)%nat) as Hlen.
  { cbn. rewrite length_app. cbn. lia. }
  destruct (processClaim_screened_verdict env w1 claimId
              (set_fraudCheckCompleted true c) v Hst1 Hs eq_refl Hf) as [l1 ->].
  { by rewrite Hlen. }
  eexists _, _. split; [reflexivity|]. subst w1. cbn [store trace].
  rewrite lookup_insert_eq, !screener_calls_app, !oracle_calls_app,
          screener_calls_notice, oracle_calls_notice.
  cbn [screener_calls oracle_calls].
  split_and!; try done; lia.
Qed.

Lemma processClaim_after_failed_screening_witness :
  let env := mkEnv (detectFraud env_screener_down) None (verifyClaim env_ok)
                   (userService_findOne env_ok) (sendClaimSubmittedNotification env_ok)
                   (sendClaimStatusNotification env_ok)
                   (sendClaimProcessingNotification env_ok)
                   (user_relation env_ok) (clock env_ok) in
  stored (one_claim env) 1 fresh_row ∧
  let w1 := (processClaim env 1 (one_claim env)).1 in
  ∃ w2 c2,
    processClaim env 1 w1 = (w2, inr RetVoid) ∧
    store w2 !! 1 = Some c2 ∧
    status c2 = verdictStatus "approved" ∧
    (od_verdict <$> oracleData c2) = Some "approved" ∧
    fraudCheckCompleted c2 = true ∧ isFraudulent c2 = false ∧
    fraudDetectionData c2 = fraudDetectionData fresh_row ∧
    fraudConfidenceScore c2 = fraudConfidenceScore fresh_row ∧
    screener_calls (trace w2) = S (screener_calls (trace (one_claim env))) ∧
    oracle_calls (trace w2) = S (oracle_calls (trace (one_claim env))).
Proof.
  intros env.
  assert (H : stored (one_claim env) 1 fresh_row) by (split; reflexivity).
  split; [exact H|].
  exact (processClaim_after_failed_screening env (one_claim env) 1 fresh_row
           (Error "screener unavailable") "approved" H eq_refl eq_refl eq_refl
           eq_refl eq_refl).
Defined.

(** X22: an unrecognised verdict leaves the claim open for a retry.  When
    the oracle's answer on a screened Pending claim is neither "approved"
    nor "rejected", the claim stays Pending with that answer recorded; a
    second [processClaim] asks the oracle again, never the detector, and
    the claim ends with the status and the verdict data of the second
    answer. *)
Theorem processClaim_retry_after_unrecognised_verdict env w claimId c v1 v2 :
  stored w claimId c → status c = PENDING →
  fraudCheckCompleted c = true → isFraudulent c = false →
  verifyClaim env (length (trace w)) claimId (description c) = inr v1 →
  v1 ≠ "approved" → v1 ≠ "rejected" →
  let w1 := (processClaim env claimId w).1 in
  verifyClaim env (length (trace w1)) claimId (description c) = inr v2 →
  ∃ c1 w2 c2,
    store w1 !! claimId = Some c1 ∧ status c1 = PENDING ∧
    (od_verdict <$> oracleData c1) = Some v1 ∧
    processClaim env claimId w1 = (w2, inr RetVoid) ∧
    store w2 !! claimId = Some c2 ∧
    status c2 = verdictStatus v2 ∧
    (od_verdict <$> oracleData c2) = Some v2 ∧
    screener_calls (trace w2) = screener_calls (trace w) ∧
    oracle_calls (trace w2) = S (S (oracle_calls (trace w))).
Proof.
  intros Hst Hs Hc Hf Hv1 Hna Hnr w1. subst w1.
  destruct (processClaim_screened_verdict env w claimId c v1 Hst Hs Hc Hf Hv1)
    as [l ->].
  destruct Hst as [Hl Hid]. cbn [fst].
  set (c1 := judged v1 (clock env (S (length (trace w)))) c).
  set (w1 := mkWorld _ _ _ _ _).
  intros Hv2.
  assert (status c1 = PENDING) as Hs1.
  { destruct (verdictStatus_cases v1) as [[? _]|[[? _]|(_ & _ & ?)]]; done. }
  assert (stored w1 claimId c1) as Hst1.
  { split; [apply lookup_insert_eq|done]. }
  destruct (processClaim_screened_verdict env w1 claimId c1 v2 Hst1 Hs1 Hc Hf Hv2)
    as [l1 ->].
  eexists c1, _, _. split; [apply lookup_insert_eq|].
  split; [done|]. split; [done|]. split; [reflexivity|].
  subst w1. cbn [store trace].
  rewrite lookup_insert_eq, !screener_calls_app, !oracle_calls_app,
          !screener_calls_notice, !oracle_calls_notice.
  cbn [screener_calls oracle_calls].
  split_and!; try done; lia.
Qed.

Lemma processClaim_retry_after_unrecognised_verdict_witness :
  let env := mkEnv (detectFraud env_ok) None
                   (λ n _ _, inr (if (n <? 8)%nat then "maybe" else "rejected"))
                   (userService_findOne env_ok) (sendClaimSubmittedNotification env_ok)
                   (sendClaimStatusNotification env_ok)
                   (sendClaimProcessingNotification env_ok)
                   (user_relation env_ok) (clock env_ok) in
  let c := screened env (one_claim env) fresh_row legitimate in
  stored (cleared_claim env) 1 c ∧
  let w1 := (processClaim env 1 (cleared_claim env)).1 in
  ∃ c1 w2 c2,
    store w1 !! 1 = Some c1 ∧ status c1 = PENDING ∧
    (od_verdict <$> oracleData c1) = Some "maybe" ∧
    processClaim env 1 w1 = (w2, inr RetVoid) ∧
    store w2 !! 1 = Some c2 ∧
    status c2 = verdictStatus "rejected" ∧
    (od_verdict <$> oracleData c2) = Some "rejected" ∧
    screener_calls (trace w2) = screener_calls (trace (cleared_claim env)) ∧
    oracle_calls (trace w2) = S (S (oracle_calls (trace (cleared_claim env)))).
Proof.
  intros env c.
  assert (H : stored (cleared_claim env) 1 c) by (split; vm_compute; reflexivity).
  split; [exact H|].
  apply (processClaim_retry_after_unrecognised_verdict env (cleared_claim env) 1 c
           "maybe" "rejected" H eq_refl eq_refl eq_refl).
  - vm_compute. reflexivity.
  - discriminate.
  - discriminate.
  - vm_compute. reflexivity.
Defined.

Lemma processClaim_leaves_screened env w claimId c :
  stored w claimId c → status c = PENDING →
  ∃ s tr l res c1,
    processClaim env claimId w = (after w s tr l, res) ∧
    s !! claimId = Some c1 ∧ fraudCheckCompleted c1 = true.
Proof.
  intros Hst Hs. pose proof Hst as [Hl Hid].
  destruct (processClaim_paths env w claimId c Hst Hs) as [l Hpaths].
  destruct Hpaths as
    [(Hc & Hf & ->)|[(Hc & Hf & e & Hv & ->)|[(Hc & Hf & v & Hv & ->)|
     [(Hc & e & Hd & ->)|(Hc & r & Hd &
        [(Hf & ->)|[(Hf & e & Hv & ->)|(Hf & v & Hv & ->)]])]]]];
    try screened_fields env w c r;
    eexists _, _, _, _, _; (split; [reflexivity|]);
    rewrite ?lookup_insert_eq; split; try reflexivity; try done.
Qed.

(** X23: the screening that [create] queued is harmless when
    [processClaim] gets there first.  After [processClaim] has run on a
    stored Pending claim, however it ended, the claim has
    [fraudCheckCompleted] set; so when the queued callback for that claim
    runs next, it returns without calling the detector and without writing:
    store and trace stay as [processClaim] left them. *)
Theorem queued_screening_after_processClaim env w claimId c rest :
  stored w claimId c → status c = PENDING → timers w = claimId :: rest →
  let w1 := (processClaim env claimId w).1 in
  ∃ c1 w2,
    store w1 !! claimId = Some c1 ∧ fraudCheckCompleted c1 = true ∧
    runTimer env w1 = (w2, inr tt) ∧
    store w2 = store w1 ∧ trace w2 = trace w1 ∧ timers w2 = rest.
Proof.
  intros Hst Hs Ht w1. subst w1.
  destruct (processClaim_leaves_screened env w claimId c Hst Hs)
    as (s & tr & l & res & c1 & -> & Hc1 & Hdone).
  exists c1. eexists. split; [done|]. split; [done|].
  unfold runTimer, try_catch. cbn [fst after timers]. rewrite Ht.
  erewrite runFraudDetection_done; [|exact Hc1|exact Hdone].
  by split_and!.
Qed.

Lemma queued_screening_after_processClaim_witness :
  stored (one_claim env_fraud) 1 fresh_row ∧ timers (one_claim env_fraud) = [1] ∧
  let w1 := (processClaim env_fraud 1 (one_claim env_fraud)).1 in
  ∃ c1 w2,
    store w1 !! 1 = Some c1 ∧ fraudCheckCompleted c1 = true ∧
    runTimer env_fraud w1 = (w2, inr tt) ∧
    store w2 = store w1 ∧ trace w2 = trace w1 ∧ timers w2 = [].
Proof.
  assert (H : stored (one_claim env_fraud) 1 fresh_row) by (split; reflexivity).
  split; [exact H|]. split; [reflexivity|].
  exact (queued_screening_after_processClaim env_fraud (one_claim env_fraud) 1
           fresh_row [] H eq_refl eq_refl).
Defined.
